(** * MultiTextAI: the Streamlit page of [app.py], embedded and verified

    [app.py] is one script.  Streamlit runs it from top to bottom every time
    the user touches a widget.  The script loads three text classifiers
    (memoised by [st.cache_resource]), draws a task selector, a text area and
    a button, and, when the button is pressed on non-blank text, detects the
    language, translates to English if needed, runs the selected classifier,
    reshapes its output and shows it as a table and a pie chart.

    The embedding keeps the script's shape.  Effects (widget calls, calls to
    the language detector, the translator and the classifiers) are recorded
    in a log by a small writer monad with exceptions; [st.stop()] and Python
    exceptions are two distinct ways for a run to end early.  The external
    functions ([detect], the translator, [pipeline], the two rounding
    routines) are variables of a section: the theorems on the script hold
    whatever they compute.  Only the theorem on the values shown takes the
    two rounding routines to be numpy's and Python's, on IEEE doubles. *)

From Stdlib Require Import String List ZArith NArith Bool Floats.
From stdpp Require Import base gmap strings list.

Set Warnings "-inexact-float".

Open Scope string_scope.
Open Scope list_scope.

(** ** Python values *)

(** The text typed by the user and the text returned by the translator are
    Python [str] values, that is, sequences of Unicode code points.
    [str.strip] looks at the code points, so they are kept as numbers.
    Program literals, labels and language codes are plain [string]s. *)
Definition pystr := list N.

(** An exception object: its class name and what [str(e)] prints. *)
Record exn := Exception { exn_class : string; exn_str : string }.

(** What a call into a library gives back: a value, or a raised exception. *)
Inductive result (A : Type) : Type :=
| Returns (a : A)
| Raises (e : exn).
Arguments Returns {A} a.
Arguments Raises {A} e.

(** [Py_UNICODE_ISSPACE]: the code points [str.strip()] removes. *)
Definition isspace (c : N) : bool :=
  ((9 <=? c) && (c <=? 13) || (28 <=? c) && (c <=? 32)
   || (c =? 133) || (c =? 160) || (c =? 5760)
   || (8192 <=? c) && (c <=? 8202)
   || (c =? 8232) || (c =? 8233) || (c =? 8239) || (c =? 8287)
   || (c =? 12288))%N.

Fixpoint lstrip (s : pystr) : pystr :=
  match s with
  | [] => []
  | c :: s' => if isspace c then lstrip s' else s
  end.

Definition rstrip (s : pystr) : pystr := rev (lstrip (rev s)).

(** [s.strip()] *)
Definition strip (s : pystr) : pystr := rstrip (lstrip s).

(** Truth value of a [str] in a condition: non-empty. *)
Definition truthy (s : pystr) : bool :=
  match s with [] => false | _ :: _ => true end.

(** One element of a classifier's answer: [{'label': ..., 'score': ...}]. *)
Record record := Rec { label : string; score : float }.

(** A loaded [transformers] pipeline, called on a string.  With
    [return_all_scores=True] it answers with one list of records per input. *)
Definition classifier := pystr -> result (list (list record)).

(** [d.get(k, default)] on a Python dict. *)
Definition dict_get (d : gmap string string) (k default : string) : string :=
  match d !! k with
  | Some v => v
  | None => default
  end.

(** Label mapping for AG News categories. *)
Definition NEWS_LABEL_MAP : gmap string string :=
  <["LABEL_0" := "World"]> (
  <["LABEL_1" := "Sports"]> (
  <["LABEL_2" := "Business"]> (
  <["LABEL_3" := "Sci/Tech"]> ∅))).

(** ** pandas and plotly, as far as the script uses them *)

(** A column: the label column holds strings, the score column floats. *)
Inductive Series :=
| StrSeries (l : list string)
| FloatSeries (l : list float).

(** A frame: its columns in order, each under its name. *)
Definition DataFrame := list (string * Series).

Definition KeyError (k : string) : exn := Exception "KeyError" k.
Definition TypeError (m : string) : exn := Exception "TypeError" m.
Definition ValueError (m : string) : exn := Exception "ValueError" m.
Definition IndexError (m : string) : exn := Exception "IndexError" m.

(** [pd.DataFrame(results)] on a list of records that all have the keys
    ['label'] and ['score'], in that order.  An empty list gives a frame
    with no column at all. *)
Definition pd_DataFrame (results : list record) : DataFrame :=
  match results with
  | [] => []
  | _ :: _ => [("label", StrSeries (map label results));
               ("score", FloatSeries (map score results))]
  end.

(** [df[name]] *)
Fixpoint getitem (df : DataFrame) (name : string) : result Series :=
  match df with
  | [] => Raises (KeyError name)
  | (n, s) :: df' => if String.eqb n name then Returns s else getitem df' name
  end.

Definition Series_len (s : Series) : nat :=
  match s with
  | StrSeries l => length l
  | FloatSeries l => length l
  end.

(** [len(df)]: the number of rows. *)
Definition len (df : DataFrame) : nat :=
  match df with
  | [] => 0
  | (_, s) :: _ => Series_len s
  end.

(** [s.reindex(range(n))]: the first [n] values of [s]; rows that [s] does
    not have are missing, which pandas shows as NaN. *)
Definition reindex (n : nat) (s : Series) : Series :=
  match s with
  | StrSeries l => StrSeries (firstn n l ++ repeat "NaN" (n - length l))
  | FloatSeries l => FloatSeries (firstn n l ++ repeat PrimFloat.nan (n - length l))
  end.

(** Replace the column [name] in place, or append it. *)
Fixpoint set_column (df : DataFrame) (name : string) (s : Series) : DataFrame :=
  match df with
  | [] => [(name, s)]
  | (n, s') :: df' =>
      if String.eqb n name then (n, s) :: df' else (n, s') :: set_column df' name s
  end.

(** [df[name] = s] for a Series [s].  Frames and Series here are indexed by
    position, as those of the script are.  pandas aligns [s] on the index of
    the frame, so every column keeps the length of the frame; a frame
    without rows takes the index of [s] first. *)
Definition setitem (df : DataFrame) (name : string) (s : Series) : DataFrame :=
  if Nat.eqb (len df) 0
  then set_column (map (fun c => (fst c, reindex (Series_len s) (snd c))) df) name s
  else set_column df name (reindex (len df) s).

Fixpoint lookup_name (columns : list (string * string)) (n : string) : string :=
  match columns with
  | [] => n
  | (old, new) :: columns' => if String.eqb old n then new else lookup_name columns' n
  end.

(** [df.rename(columns={...})]: names absent from the frame are ignored. *)
Definition rename (df : DataFrame) (columns : list (string * string)) : DataFrame :=
  map (fun c => (lookup_name columns (fst c), snd c)) df.

(** The pie built by [px.pie] and adjusted by [update_traces]. *)
Record Figure := {
  labels : Series;
  values : Series;
  title : string;
  hole : float;
  textinfo : option string;
  pull : list float
}.

(** [px.pie(df, names=..., values=..., title=..., hole=...)]: one sector per
    row, in the order of the frame. *)
Definition px_pie (df : DataFrame) (names values : string) (title : string)
    (hole : float) : result Figure :=
  match getitem df names, getitem df values with
  | Returns l, Returns v =>
      Returns {| labels := l; values := v; title := title; hole := hole;
                 textinfo := None; pull := [] |}
  | _, _ => Raises (ValueError "Value of 'names' or 'values' is not the name of a column")
  end.

(** [fig.update_traces(textinfo=..., pull=...)] *)
Definition update_traces (fig : Figure) (textinfo : string) (pull : list float) : Figure :=
  {| labels := labels fig; values := values fig; title := title fig;
     hole := hole fig; textinfo := Some textinfo; pull := pull |}.

(** What a table or a chart shows, entry by entry. *)
Inductive cell :=
| CStr (s : string)
| CFloat (x : float).

Definition cells (s : Series) : list cell :=
  match s with
  | StrSeries l => map CStr l
  | FloatSeries l => map CFloat l
  end.

Fixpoint zip {A B : Type} (l : list A) (l' : list B) : list (A * B) :=
  match l, l' with
  | a :: l, b :: l' => (a, b) :: zip l l'
  | _, _ => []
  end.

(** The sectors of a pie, in drawing order: (label, value). *)
Definition sectors (fig : Figure) : list (cell * cell) :=
  zip (cells (labels fig)) (cells (values fig)).

(** The rows of a two-column table, top to bottom; a frame without columns
    has no rows. *)
Definition table_rows (df : DataFrame) : list (cell * cell) :=
  match df with
  | [(_, c1); (_, c2)] => zip (cells c1) (cells c2)
  | _ => []
  end.

(** ** The log of a run *)

(** An f-string: literal parts and formatted values. *)
Inductive piece :=
| Lit (s : string)
| Fmt (t : pystr).

Definition message := list piece.

Inductive pipe_name := sentiment_pipe_ | toxic_pipe_ | category_pipe_.

Inductive event :=
| CallPipeline (task model : string)
| CallDetect (t : pystr)
| CallTranslate (source target : string) (t : pystr)
| CallClassifier (p : pipe_name) (t : pystr)
| SpinnerEnter (msg : message)
| SpinnerExit
| StMarkdown (msg : message)
| StSelectbox (caption : message) (options : list string)
| StTextArea (caption : message)
| StButton (caption : message)
| StError (msg : message)
| StInfo (msg : message)
| StSubheader (msg : message)
| StDataframe (df : DataFrame)
| StPlotlyChart (fig : Figure).

(** How a piece of the script ends: normally with a value, by [st.stop()],
    or by an exception nobody caught. *)
Inductive outcome (A : Type) : Type :=
| Done (a : A)
| Stopped
| Raised (e : exn).
Arguments Done {A} a.
Arguments Stopped {A}.
Arguments Raised {A} e.

(** A piece of script: what it logged and how it ended. *)
Definition ui (A : Type) : Type := (list event * outcome A)%type.

Definition ret {A : Type} (a : A) : ui A := ([], Done a).

Definition bind {A B : Type} (m : ui A) (k : A -> ui B) : ui B :=
  match m with
  | (l, Done a) => let (l', o) := k a in (l ++ l', o)
  | (l, Stopped) => (l, Stopped)
  | (l, Raised e) => (l, Raised e)
  end.

Declare Scope ui_scope.
Delimit Scope ui_scope with ui.
Notation "x <- m ;; k" := (bind m (fun x => k))
  (at level 100, m at next level, right associativity) : ui_scope.
Notation "m ;; k" := (bind m (fun _ => k))
  (at level 100, k at level 200, right associativity) : ui_scope.

Definition emit (e : event) : ui unit := ([e], Done tt).

(** A call into a library, logged before it answers. *)
Definition call {A : Type} (e : event) (r : result A) : ui A :=
  match r with
  | Returns a => ([e], Done a)
  | Raises x => ([e], Raised x)
  end.

(** A pure library call that may raise. *)
Definition lift {A : Type} (r : result A) : ui A :=
  match r with
  | Returns a => ([], Done a)
  | Raises x => ([], Raised x)
  end.

(** [try: m except Exception as e: h e].  Streamlit's [StopException] is
    not an [Exception], so a stop passes through. *)
Definition try_except {A : Type} (m : ui A) (h : exn -> ui A) : ui A :=
  match m with
  | (l, Raised e) => let (l', o) := h e in (l ++ l', o)
  | _ => m
  end.

(** [with st.spinner(msg): body]: the spinner is removed however the body
    ends. *)
Definition spinner {A : Type} (msg : message) (body : ui A) : ui A :=
  (SpinnerEnter msg :: fst body ++ [SpinnerExit], snd body).

Definition st_stop {A : Type} : ui A := ([], Stopped).
Definition st_markdown (msg : message) : ui unit := emit (StMarkdown msg).
Definition st_error (msg : message) : ui unit := emit (StError msg).
Definition st_info (msg : message) : ui unit := emit (StInfo msg).
Definition st_subheader (msg : message) : ui unit := emit (StSubheader msg).
Definition st_dataframe (df : DataFrame) : ui unit := emit (StDataframe df).
Definition st_plotly_chart (fig : Figure) : ui unit := emit (StPlotlyChart fig).

(** Widgets: the call draws the widget and returns what the user set. *)
Definition st_selectbox (caption : message) (options : list string) (v : string) : ui string :=
  ([StSelectbox caption options], Done v).
Definition st_text_area (caption : message) (v : pystr) : ui pystr :=
  ([StTextArea caption], Done v).
Definition st_button (caption : message) (v : bool) : ui bool :=
  ([StButton caption], Done v).

(** [str(e)] inside an f-string. *)
Definition str (e : exn) : piece := Lit (exn_str e).

Definition newline : string := String (Ascii.ascii_of_nat 10) "".

(** [l[0]] *)
Definition index0 {A : Type} (l : list A) : result A :=
  match l with
  | [] => Raises (IndexError "list index out of range")
  | x :: _ => Returns x
  end.

(** The three entries of the task selector. *)
Inductive Task := SentimentAnalysis | ToxicCommentDetection | NewsCategoryClassification.

Definition task_name (t : Task) : string :=
  match t with
  | SentimentAnalysis => "Sentiment Analysis"
  | ToxicCommentDetection => "Toxic Comment Detection"
  | NewsCategoryClassification => "News Category Classification"
  end.

Definition options : list string :=
  ["Sentiment Analysis"; "Toxic Comment Detection"; "News Category Classification"].

(** What the user has set when the script runs: the selected task, the
    content of the text area, and whether the button was just pressed. *)
Record widgets := { selected : Task; typed : pystr; pressed : bool }.

(** ** What a log shows *)

(** The calls to the outside world a run made, in order: these are the
    steps of the request pipeline (and the model loading). *)
Definition is_step (e : event) : bool :=
  match e with
  | CallPipeline _ _ | CallDetect _ | CallTranslate _ _ _ | CallClassifier _ _ => true
  | _ => false
  end.

Definition steps (log : list event) : list event := filter is_step log.

(** The models constructed, as (task, model). *)
Definition loads (log : list event) : list (string * string) :=
  flat_map (fun e => match e with CallPipeline t m => [(t, m)] | _ => [] end) log.

(** The texts sent to the translator. *)
Definition translations (log : list event) : list pystr :=
  flat_map (fun e => match e with CallTranslate _ _ t => [t] | _ => [] end) log.

(** The classifier calls: which pipeline, on which text. *)
Definition classifications (log : list event) : list (pipe_name * pystr) :=
  flat_map (fun e => match e with CallClassifier p t => [(p, t)] | _ => [] end) log.

(** The frames shown as tables and the figures shown as charts. *)
Definition tables (log : list event) : list DataFrame :=
  flat_map (fun e => match e with StDataframe df => [df] | _ => [] end) log.

Definition charts (log : list event) : list Figure :=
  flat_map (fun e => match e with StPlotlyChart fig => [fig] | _ => [] end) log.

(** The messages shown by [st.error] and by [st.info]. *)
Definition errors (log : list event) : list message :=
  flat_map (fun e => match e with StError m => [m] | _ => [] end) log.

Definition infos (log : list event) : list message :=
  flat_map (fun e => match e with StInfo m => [m] | _ => [] end) log.

(** ** Stand-ins for the outside world, for the worked examples *)

Module Scenario.

(** An ASCII literal as a Python [str]. *)
Definition of_ascii (s : string) : pystr :=
  map (fun a => N.of_nat (Ascii.nat_of_ascii a)) (list_ascii_of_string s).

Definition reads (t : pystr) (s : string) : bool := bool_decide (t = of_ascii s).

Definition detect (t : pystr) : result string :=
  if reads t "I love this!" then Returns "en"
  else if reads t "Stocks rallied after the earnings report." then Returns "en"
  else if reads t "Me encanta esto!" then Returns "es"
  else if reads t "Hola" then Returns "es"
  else Raises (Exception "LangDetectException" "No features in text.").

Definition translate (source target : string) (t : pystr) : result pystr :=
  if reads t "Me encanta esto!" then Returns (of_ascii "I love this!")
  else Raises (Exception "RequestError" "Request exception can happen due to an api connection error.").

Definition sentiment_pipe : classifier := fun _ =>
  Returns [[Rec "NEGATIVE" 0.000125%float; Rec "POSITIVE" 0.999875%float]].

Definition toxic_pipe : classifier := fun _ =>
  Returns [[Rec "toxic" 0.0625%float; Rec "severe_toxic" 0.001953125%float;
            Rec "obscene" 0.015625%float; Rec "threat" 0.0009765625%float;
            Rec "insult" 0.03125%float; Rec "identity_hate" 0.00390625%float]].

(** The news model also answers with a label outside the mapping here, to
    exercise the fallback. *)
Definition category_pipe : classifier := fun _ =>
  Returns [[Rec "LABEL_0" 0.0625%float; Rec "LABEL_1" 0.03125%float;
            Rec "LABEL_2" 0.875%float; Rec "LABEL_3" 0.015625%float;
            Rec "LABEL_9" 0.015625%float]].

Definition pipeline (task model : string) : result classifier :=
  if String.eqb model "distilbert-base-uncased-finetuned-sst-2-english" then Returns sentiment_pipe
  else if String.eqb model "unitary/toxic-bert" then Returns toxic_pipe
  else if String.eqb model "textattack/distilbert-base-uncased-ag-news" then Returns category_pipe
  else Raises (Exception "OSError" "model not found").

(** A pipeline factory whose second model cannot be loaded. *)
Definition broken_pipeline (task model : string) : result classifier :=
  if String.eqb model "unitary/toxic-bert" then Raises (Exception "OSError" "model not found")
  else pipeline task model.

(** Round half to even on [decimals] places, for values of moderate size:
    scale, round to an integer by adding and removing 2^52, scale back. *)
Definition round (x : float) (decimals : Z) : float :=
  let s := PrimFloat.of_uint63 (Uint63.of_Z (10 ^ decimals)) in
  let big := 4503599627370496%float in
  PrimFloat.div (PrimFloat.sub (PrimFloat.add (PrimFloat.mul x s) big) big) s.

Definition request (task : Task) (s : string) : widgets :=
  {| selected := task; typed := of_ascii s; pressed := true |}.

End Scenario.

(** Stand-ins for a bad day: a classifier that raises, one that answers
    with no label at all, and a model factory that fails at once. *)
Module Outage.

Definition raising_pipe : classifier := fun _ =>
  Raises (Exception "RuntimeError" "CUDA out of memory").

Definition silent_pipe : classifier := fun _ => Returns [[]].

Definition pipeline (task model : string) : result classifier :=
  Raises (Exception "OSError" "We couldn't connect to huggingface.co").

End Outage.

(** A detector that always reports French, and a translator that gives its
    input back, as a translation service does for text it leaves alone. *)
Module Echo.

Definition detect (t : pystr) : result string := Returns "fr".

Definition translate (source target : string) (t : pystr) : result pystr := Returns t.

End Echo.

(** ** Rounding to two places

    Modelled from the spec: the two rounding routines belong to numpy and
    to CPython, not to this repository.  Section 4.3 of the specification
    only says "round to 2 decimal places"; the definitions of this module
    follow what the two libraries compute on IEEE binary64 numbers, so that
    the values shown by the page can be reasoned about.  The script itself,
    in the section below, stays parametric in the two routines. *)
Module Binary64.

(** The integer nearest to [n / d], ties going to the even one. *)
Definition nearest_even (n d : Z) : Z :=
  let q := (n / d)%Z in
  match (2 * (n mod d) ?= d)%Z with
  | Lt => q
  | Eq => if Z.even q then q else (q + 1)%Z
  | Gt => (q + 1)%Z
  end.

(** The integer [k], signed by [s], as an exact floating-point datum. *)
Definition SF_of_Z (s : bool) (k : Z) : spec_float :=
  match k with
  | Z0 => S754_zero s
  | Zpos p => S754_finite s p 0
  | Zneg p => S754_finite (negb s) p 0
  end.

Definition signed (s : bool) (x : float) : float :=
  if s then PrimFloat.opp x else x.

(** The double of a natural number below 2^53, which it represents
    exactly. *)
Definition of_int (k : Z) : float := PrimFloat.of_uint63 (Uint63.of_Z k).

(** The double nearest to the natural number [k]. *)
Definition float_of_Z (k : Z) : float :=
  SF2Prim (binary_normalize prec emax k 0 false).

(** The double nearest to [k / 10^j], signed by [s]: what [strtod] makes of
    the decimal digits of [k] with the point [j] places from the right.
    When [k] has at most 15 digits and [j] is at most 22, both [k] and
    [10^j] are exact doubles and [strtod] divides them; the division rounds
    correctly.  Otherwise the quotient of the two integers is rounded
    directly. *)
Definition decimal (s : bool) (k j : Z) : float :=
  if ((k <? 10 ^ 15) && (j <=? 22))%Z
  then signed s (PrimFloat.div (of_int k) (of_int (10 ^ j)))
  else SF2Prim (SFdiv prec emax (SF_of_Z s k) (SF_of_Z false (10 ^ j))).

(** C's [rint] in the default rounding mode: the nearest integer, ties to
    even, with the sign of the argument.  A double whose exponent is not
    negative is an integer already. *)
Definition rint (x : float) : float :=
  match Prim2SF x with
  | S754_finite s m e =>
      if (e <? 0)%Z then signed s (of_int (nearest_even (Z.pos m) (2 ^ (- e)))) else x
  | _ => x
  end.

(** Modelled from the spec: numpy's rounding of one element, which is what
    [Series.round(decimals)] applies to a float64 column.  numpy scales by
    the power of ten, rounds to the nearest integer with [rint] and scales
    back; each of the three operations rounds to a double. *)
Definition numpy_round (x : float) (decimals : Z) : float :=
  if (0 <=? decimals)%Z then
    let f := float_of_Z (10 ^ decimals) in
    PrimFloat.div (rint (PrimFloat.mul x f)) f
  else
    let f := float_of_Z (10 ^ (- decimals)) in
    PrimFloat.mul (rint (PrimFloat.div x f)) f.

(** Modelled from the spec: Python's builtin [round(x, ndigits)] on a
    float.  CPython prints the exact value of [x] with [ndigits] digits
    after the point, correctly rounded with ties to even, and reads the
    digits back as a double.  Zeros, infinities and NaN are returned as
    they are.  (For a huge [x] and a negative [ndigits] CPython raises
    OverflowError where this gives an infinity.) *)
Definition builtin_round (x : float) (ndigits : Z) : float :=
  match Prim2SF x with
  | S754_finite s m e =>
      let num := (Z.pos m * 2 ^ Z.max e 0 * 10 ^ Z.max ndigits 0)%Z in
      let den := (2 ^ Z.max (- e) 0 * 10 ^ Z.max (- ndigits) 0)%Z in
      let k := nearest_even num den in
      if (0 <=? ndigits)%Z then decimal s k ndigits
      else signed s (float_of_Z (k * 10 ^ (- ndigits)))
  | _ => x
  end.

(** The double nearest to [k / 100]: both operands are exact and IEEE
    division rounds correctly. *)
Definition hundredths (k : Z) : float := PrimFloat.div (of_int k) 100.

(** A percentage with two decimals, as a double: the double nearest to
    [k / 100] for an integer [k] from 0 to 10000 (or the negative zero). *)
Definition two_decimals (c : float) : Prop :=
  exists (s : bool) (k : Z),
    (s = true -> k = 0%Z) /\ (0 <= k <= 10000)%Z /\ c = signed s (hundredths k).

(** [f k && f (k + 1) && ...] over [n] consecutive integers. *)
Fixpoint all_from (f : Z -> bool) (k : Z) (n : nat) : bool :=
  match n with
  | O => true
  | S n' => f k && all_from f (k + 1)%Z n'
  end.

(** A double that lies in [0, 100] and that both roundings leave alone. *)
Definition settled (c : float) : bool :=
  PrimFloat.leb 0 c && PrimFloat.leb c 100
  && PrimFloat.Leibniz.eqb (numpy_round c 2) c
  && PrimFloat.Leibniz.eqb (builtin_round c 2) c.

End Binary64.

(** ** The script *)

Section App.

Local Open Scope ui_scope.

(** [langdetect.detect] *)
Variable detect : pystr -> result string.
(** [GoogleTranslator(source=..., target=...).translate(text)] *)
Variable translate : string -> string -> pystr -> result pystr.
(** [transformers.pipeline(task, model=..., return_all_scores=True)] *)
Variable pipeline : string -> string -> result classifier.
(** numpy's rounding of one element, behind [Series.round(decimals)] *)
Variable numpy_round : float -> Z -> float.
(** Python's builtin [round(x, ndigits)] on a float *)
Variable builtin_round : float -> Z -> float.

(** [series * k] on a numeric column. *)
Definition Series_mul (s : Series) (k : float) : result Series :=
  match s with
  | FloatSeries l => Returns (FloatSeries (map (fun x => PrimFloat.mul x k) l))
  | StrSeries _ => Raises (TypeError "unsupported operand")
  end.

(** [series.round(decimals)] on a numeric column. *)
Definition Series_round (s : Series) (decimals : Z) : result Series :=
  match s with
  | FloatSeries l => Returns (FloatSeries (map (fun x => numpy_round x decimals) l))
  | StrSeries _ => Raises (TypeError "Expected numeric dtype")
  end.

Definition load_pipelines : ui (classifier * classifier * classifier) :=
  sentiment_pipe <-
    call (CallPipeline "text-classification" "distilbert-base-uncased-finetuned-sst-2-english")
         (pipeline "text-classification" "distilbert-base-uncased-finetuned-sst-2-english") ;;
  toxic_pipe <-
    call (CallPipeline "text-classification" "unitary/toxic-bert")
         (pipeline "text-classification" "unitary/toxic-bert") ;;
  category_pipe <-
    call (CallPipeline "text-classification" "textattack/distilbert-base-uncased-ag-news")
         (pipeline "text-classification" "textattack/distilbert-base-uncased-ag-news") ;;
  ret (sentiment_pipe, toxic_pipe, category_pipe).

Definition plot_pie_chart (df : DataFrame) (label_col value_col title : string) : ui unit :=
  fig <- lift (px_pie df label_col value_col title 0.4%float) ;;
  let fig := update_traces fig "percent+label" (repeat 0.02%float (len df)) in
  st_plotly_chart fig.

(** The body of the [for r in results] loop of the news branch.  The
    classifier builds one fresh dict per label, so updating each dict in
    place is a map over the list. *)
Definition relabel (r : record) : record :=
  {| label := dict_get NEWS_LABEL_MAP (label r) (label r);
     score := builtin_round (PrimFloat.mul (score r) 100%float) 2 |}.

Section Page.

Variables sentiment_pipe toxic_pipe category_pipe : classifier.

(** The first [with st.spinner] block: the text handed to the classifier. *)
Definition normalize (text : pystr) : ui pystr :=
  spinner [Lit "🔍 Detecting language & translating..."] (
    detected_lang <-
      try_except (call (CallDetect text) (detect text))
        (fun e =>
           st_error [Lit "❌ Error detecting language: "; str e] ;;
           st_stop) ;;
    if negb (String.eqb detected_lang "en") then
      try_except
        (translated <- call (CallTranslate "auto" "en" text) (translate "auto" "en" text) ;;
         st_markdown [Lit "🌐 **Detected Language**: `"; Lit detected_lang;
                      Lit "` → Translated to English:"; Lit newline;
                      Lit "> _"; Fmt translated; Lit "_"] ;;
         let text_to_use := translated in
         ret text_to_use)
        (fun e =>
           st_error [Lit "❌ Translation failed: "; str e] ;;
           st_stop)
    else
      let text_to_use := text in
      st_markdown [Lit "✅ Input is in English. No translation needed."] ;;
      ret text_to_use).

(** The second [with st.spinner] block. *)
Definition classify (task : string) (text_to_use : pystr) : ui unit :=
  spinner [Lit "⚙️ Running classification..."] (
    if String.eqb task "Sentiment Analysis" then
      out <- call (CallClassifier sentiment_pipe_ text_to_use) (sentiment_pipe text_to_use) ;;
      results <- lift (index0 out) ;;
      let df := pd_DataFrame results in
      col <- lift (getitem df "score") ;;
      col <- lift (Series_mul col 100%float) ;;
      col <- lift (Series_round col 2) ;;
      let df := setitem df "score" col in
      let df := rename df [("label", "Sentiment"); ("score", "Confidence (%)")] in
      st_subheader [Lit "Sentiment Results"] ;;
      st_dataframe df ;;
      plot_pie_chart df "Sentiment" "Confidence (%)" "Sentiment Distribution"
    else if String.eqb task "Toxic Comment Detection" then
      out <- call (CallClassifier toxic_pipe_ text_to_use) (toxic_pipe text_to_use) ;;
      results <- lift (index0 out) ;;
      let df := pd_DataFrame results in
      col <- lift (getitem df "score") ;;
      col <- lift (Series_mul col 100%float) ;;
      col <- lift (Series_round col 2) ;;
      let df := setitem df "score" col in
      let df := rename df [("label", "Toxic Label"); ("score", "Confidence (%)")] in
      st_subheader [Lit "Toxicity Results"] ;;
      st_dataframe df ;;
      plot_pie_chart df "Toxic Label" "Confidence (%)" "Toxicity Confidence Breakdown"
    else if String.eqb task "News Category Classification" then
      out <- call (CallClassifier category_pipe_ text_to_use) (category_pipe text_to_use) ;;
      results <- lift (index0 out) ;;
      let results := map relabel results in
      let df := pd_DataFrame results in
      let df := rename df [("label", "Category"); ("score", "Confidence (%)")] in
      st_subheader [Lit "News Category Results"] ;;
      st_dataframe df ;;
      plot_pie_chart df "Category" "Confidence (%)" "News Category Confidence"
    else
      ret tt).

(** The page below the model loading: headings, the three widgets, and the
    [if st.button(...) and text.strip(): ... else: st.info(...)] statement. *)
Definition page (w : widgets) : ui unit :=
  st_markdown [Lit "<h1 style='text-align: center; font-size: 2.4em;'>🤖 MultiText AI - Smart Text Classification</h1>"] ;;
  st_markdown [Lit "**Supports Sentiment, Toxicity & News classification — with 🌐 Multilingual Translation!**"] ;;
  task <- st_selectbox [Lit "📌 Choose a Task"] options (task_name (selected w)) ;;
  text <- st_text_area [Lit "✍️ Enter your text here (any language):"] (typed w) ;;
  clicked <- st_button [Lit "🔎 Analyze"] (pressed w) ;;
  if clicked && truthy (strip text) then
    text_to_use <- normalize text ;;
    classify task text_to_use
  else
    st_info [Lit "Enter your text and click **Analyze** to get results."].

End Page.

(** Modelled from the spec: [st.cache_resource] is Streamlit's, not this
    repository's.  Section 4.1 of the specification gives its contract: the
    first call runs the decorated function and keeps what it returned for
    the lifetime of the process; later calls return the kept value and do no
    loading.  A call that raised keeps nothing. *)
Definition cache_resource {A : Type} (f : ui A) (cache : option A) : ui A * option A :=
  match cache with
  | Some v => (ret v, Some v)
  | None =>
      match snd f with
      | Done v => (f, Some v)
      | _ => (f, None)
      end
  end.

Definition pipes : Type := (classifier * classifier * classifier)%type.

(** One run of the whole script, from the cache as the previous run left it. *)
Definition script (cache : option pipes) (w : widgets) : ui unit * option pipes :=
  let (load, cache') := cache_resource load_pipelines cache in
  (loaded <- spinner [Lit "🔄 Loading models..."] load ;;
   let '(sentiment_pipe, toxic_pipe, category_pipe) := loaded in
   page sentiment_pipe toxic_pipe category_pipe w,
   cache').

(** Modelled from the spec: the life of one server process, as a sequence of
    script runs that share the cache.  A run whose model load failed leaves
    the cache empty, so the next run attempts the load again; sections 4.1
    and 7 only say that it will not succeed either. *)
Fixpoint process (cache : option pipes) (runs : list widgets) : list event :=
  match runs with
  | [] => []
  | w :: runs' =>
      let (r, cache') := script cache w in
      fst r ++ process cache' runs'
  end.

(** The three models of [load_pipelines], in loading order. *)
Definition models : list (string * string) :=
  [("text-classification", "distilbert-base-uncased-finetuned-sst-2-english");
   ("text-classification", "unitary/toxic-bert");
   ("text-classification", "textattack/distilbert-base-uncased-ag-news")].

(** ** What the page is expected to show *)

(** The label as displayed: remapped for the news task only. *)
Definition display_label (t : Task) (l : string) : string :=
  match t with
  | NewsCategoryClassification => dict_get NEWS_LABEL_MAP l l
  | _ => l
  end.

(** The confidence as displayed: the probability times 100, rounded to two
    places by pandas (sentiment, toxicity) or by Python (news). *)
Definition confidence (t : Task) (p : float) : float :=
  match t with
  | NewsCategoryClassification => builtin_round (PrimFloat.mul p 100%float) 2
  | _ => numpy_round (PrimFloat.mul p 100%float) 2
  end.

Definition entry (t : Task) (r : record) : cell * cell :=
  (CStr (display_label t (label r)), CFloat (confidence t (score r))).

Definition label_column (t : Task) : string :=
  match t with
  | SentimentAnalysis => "Sentiment"
  | ToxicCommentDetection => "Toxic Label"
  | NewsCategoryClassification => "Category"
  end.

Definition heading (t : Task) : string :=
  match t with
  | SentimentAnalysis => "Sentiment Results"
  | ToxicCommentDetection => "Toxicity Results"
  | NewsCategoryClassification => "News Category Results"
  end.

Definition chart_title (t : Task) : string :=
  match t with
  | SentimentAnalysis => "Sentiment Distribution"
  | ToxicCommentDetection => "Toxicity Confidence Breakdown"
  | NewsCategoryClassification => "News Category Confidence"
  end.

Definition pipe_id (t : Task) : pipe_name :=
  match t with
  | SentimentAnalysis => sentiment_pipe_
  | ToxicCommentDetection => toxic_pipe_
  | NewsCategoryClassification => category_pipe_
  end.

Definition shown_labels (t : Task) (raw : list record) : Series :=
  StrSeries (map (fun r => display_label t (label r)) raw).

Definition shown_values (t : Task) (raw : list record) : Series :=
  FloatSeries (map (fun r => confidence t (score r)) raw).

Definition shown_frame (t : Task) (raw : list record) : DataFrame :=
  [(label_column t, shown_labels t raw); ("Confidence (%)", shown_values t raw)].

Definition shown_figure (t : Task) (raw : list record) : Figure :=
  {| labels := shown_labels t raw; values := shown_values t raw;
     title := chart_title t; hole := 0.4%float;
     textinfo := Some "percent+label";
     pull := repeat 0.02%float (length raw) |}.

Section Results.

Variables sentiment_pipe toxic_pipe category_pipe : classifier.

(** The pipeline behind each task. *)
Definition pipe_of (t : Task) : classifier :=
  match t with
  | SentimentAnalysis => sentiment_pipe
  | ToxicCommentDetection => toxic_pipe
  | NewsCategoryClassification => category_pipe
  end.

Local Abbreviation classify' := (classify sentiment_pipe toxic_pipe category_pipe).
Local Abbreviation page' := (page sentiment_pipe toxic_pipe category_pipe).

Definition detecting : event := SpinnerEnter [Lit "🔍 Detecting language & translating..."].

Definition header : list event :=
  [StMarkdown [Lit "<h1 style='text-align: center; font-size: 2.4em;'>🤖 MultiText AI - Smart Text Classification</h1>"];
   StMarkdown [Lit "**Supports Sentiment, Toxicity & News classification — with 🌐 Multilingual Translation!**"];
   StSelectbox [Lit "📌 Choose a Task"] options;
   StTextArea [Lit "✍️ Enter your text here (any language):"];
   StButton [Lit "🔎 Analyze"]].

Definition prompt : message := [Lit "Enter your text and click **Analyze** to get results."].

(** The request pipeline proper: both spinner blocks. *)
Definition serve (t : Task) (text : pystr) : ui unit :=
  (text_to_use <- normalize text ;; classify' (task_name t) text_to_use)%ui.

(** A log in which nothing was classified and nothing shown as a result. *)
Definition quiet (l : list event) : Prop :=
  classifications l = [] /\ tables l = [] /\ charts l = [] /\ loads l = [].

(** The text holds a code point that [str.strip()] keeps. *)
Definition nonblank (s : pystr) : bool := existsb (fun c => negb (isspace c)) s.

(** Spinners open and close one at a time: [inside] tells whether one is
    open before the log; at the end none is. *)
Fixpoint bracketed (inside : bool) (log : list event) : bool :=
  match log with
  | [] => negb inside
  | SpinnerEnter _ :: log' => negb inside && bracketed true log'
  | SpinnerExit :: log' => inside && bracketed false log'
  | _ :: log' => bracketed inside log'
  end.

(** ** The classification block, case by case *)

(** A list cut at its own length. *)
Lemma firstn_same_length {A B C D : Type} (f : A -> B) (g : B -> C) (h : C -> D)
    (l : list A) :
  firstn (length l) (map h (map g (map f l))) = map h (map g (map f l)).
Proof.
  rewrite <- (length_map f), <- (length_map g), <- (length_map h). apply firstn_all.
Qed.

Lemma classify_shows (t : Task) (text : pystr) (r : record) (raw : list record)
    (rest : list (list record)) :
  pipe_of t text = Returns ((r :: raw) :: rest) ->
  classify' (task_name t) text =
    ([SpinnerEnter [Lit "⚙️ Running classification..."];
      CallClassifier (pipe_id t) text;
      StSubheader [Lit (heading t)];
      StDataframe (shown_frame t (r :: raw));
      StPlotlyChart (shown_figure t (r :: raw));
      SpinnerExit], Done tt).
Proof.
  intros H. destruct t; simpl in H; unfold classify; simpl; rewrite H; simpl.
  all: rewrite ?length_map, ?Nat.sub_diag, ?firstn_same_length; simpl.
  all: rewrite ?app_nil_r; unfold spinner, update_traces; simpl.
  all: unfold shown_frame, shown_figure, shown_labels, shown_values; simpl.
  all: rewrite ?map_map, ?length_map; reflexivity.
Qed.

(** What [classify] does on every other answer of the classifier. *)
Lemma classify_raises (t : Task) (text : pystr) (e : exn) :
  pipe_of t text = Raises e ->
  classify' (task_name t) text =
    ([SpinnerEnter [Lit "⚙️ Running classification..."];
      CallClassifier (pipe_id t) text; SpinnerExit], Raised e).
Proof.
  intros H. destruct t; simpl in H; unfold classify; simpl; rewrite H; reflexivity.
Qed.

Lemma classify_no_answer (t : Task) (text : pystr) :
  pipe_of t text = Returns [] ->
  classify' (task_name t) text =
    ([SpinnerEnter [Lit "⚙️ Running classification..."];
      CallClassifier (pipe_id t) text; SpinnerExit],
     Raised (IndexError "list index out of range")).
Proof.
  intros H. destruct t; simpl in H; unfold classify; simpl; rewrite H; reflexivity.
Qed.

Lemma classify_no_label (t : Task) (text : pystr) (rest : list (list record)) :
  pipe_of t text = Returns ([] :: rest) ->
  exists e,
    snd (classify' (task_name t) text) = Raised e /\
    (fst (classify' (task_name t) text) =
       [SpinnerEnter [Lit "⚙️ Running classification..."];
        CallClassifier (pipe_id t) text; SpinnerExit]
     \/
     fst (classify' (task_name t) text) =
       [SpinnerEnter [Lit "⚙️ Running classification..."];
        CallClassifier (pipe_id t) text;
        StSubheader [Lit (heading t)]; StDataframe []; SpinnerExit]).
Proof.
  intros H. destruct t; simpl in H; unfold classify; simpl; rewrite H; simpl;
    eexists; split; try reflexivity; auto.
Qed.

(** ** The four ways [normalize] can go *)

Lemma normalize_detect_fails (text : pystr) (e : exn) :
  detect text = Raises e ->
  normalize text =
    ([detecting; CallDetect text;
      StError [Lit "❌ Error detecting language: "; str e]; SpinnerExit], Stopped).
Proof. intros H. unfold normalize. rewrite H. reflexivity. Qed.

Lemma normalize_english (text : pystr) :
  detect text = Returns "en" ->
  normalize text =
    ([detecting; CallDetect text;
      StMarkdown [Lit "✅ Input is in English. No translation needed."]; SpinnerExit],
     Done text).
Proof. intros H. unfold normalize. rewrite H. reflexivity. Qed.

Lemma normalize_translates (text : pystr) (lang : string) (translated : pystr) :
  detect text = Returns lang -> lang <> "en" ->
  translate "auto" "en" text = Returns translated ->
  normalize text =
    ([detecting; CallDetect text; CallTranslate "auto" "en" text;
      StMarkdown [Lit "🌐 **Detected Language**: `"; Lit lang;
                  Lit "` → Translated to English:"; Lit newline;
                  Lit "> _"; Fmt translated; Lit "_"];
      SpinnerExit], Done translated).
Proof.
  intros Hd Hl Ht. unfold normalize. rewrite Hd. simpl.
  apply String.eqb_neq in Hl. rewrite Hl. simpl. rewrite Ht. reflexivity.
Qed.

Lemma normalize_translate_fails (text : pystr) (lang : string) (e : exn) :
  detect text = Returns lang -> lang <> "en" ->
  translate "auto" "en" text = Raises e ->
  normalize text =
    ([detecting; CallDetect text; CallTranslate "auto" "en" text;
      StError [Lit "❌ Translation failed: "; str e]; SpinnerExit], Stopped).
Proof.
  intros Hd Hl Ht. unfold normalize. rewrite Hd. simpl.
  apply String.eqb_neq in Hl. rewrite Hl. simpl. rewrite Ht. reflexivity.
Qed.

(** ** The page, idle or serving a request *)

Lemma bind_one {A B : Type} (e : event) (a : A) (k : A -> ui B) :
  bind ([e], Done a) k = (e :: fst (k a), snd (k a)).
Proof. unfold bind. destruct (k a). reflexivity. Qed.

Lemma page_idle (w : widgets) :
  pressed w && truthy (strip (typed w)) = false ->
  page' w = (header ++ [StInfo prompt], Done tt).
Proof.
  intros H. unfold page, st_markdown, st_selectbox, st_text_area, st_button, emit.
  rewrite !bind_one, H. reflexivity.
Qed.

Lemma page_request (w : widgets) :
  pressed w && truthy (strip (typed w)) = true ->
  page' w = (header ++ fst (serve (selected w) (typed w)),
             snd (serve (selected w) (typed w))).
Proof.
  intros H. unfold page, st_markdown, st_selectbox, st_text_area, st_button, emit.
  rewrite !bind_one, H. reflexivity.
Qed.

(** ** The calls made by the classification block *)

Ltac classify_cases t text :=
  let H := fresh "H" in
  let e := fresh "e" in
  destruct (pipe_of t text) as [[|[|? ?] ?]|?] eqn:H;
  [ rewrite (classify_no_answer t text H)
  | let E := fresh "E" in
    destruct (classify_no_label t text _ H) as [e [_ [E|E]]]; rewrite E
  | rewrite (classify_shows t text _ _ _ H)
  | rewrite (classify_raises t text _ H) ].

Lemma classify_steps (t : Task) (text : pystr) :
  steps (fst (classify' (task_name t) text)) = [CallClassifier (pipe_id t) text].
Proof. classify_cases t text; reflexivity. Qed.

Lemma classify_classifications (t : Task) (text : pystr) :
  classifications (fst (classify' (task_name t) text)) = [(pipe_id t, text)].
Proof. classify_cases t text; reflexivity. Qed.

Lemma classify_translations (t : Task) (text : pystr) :
  translations (fst (classify' (task_name t) text)) = [].
Proof. classify_cases t text; reflexivity. Qed.

Lemma page_stopped (w : widgets) (l : list event) :
  pressed w = true -> truthy (strip (typed w)) = true ->
  normalize (typed w) = (l, Stopped) ->
  page' w = (header ++ l, Stopped).
Proof.
  intros Hp Ht H. rewrite page_request by (rewrite Hp, Ht; reflexivity).
  unfold serve. rewrite H. reflexivity.
Qed.

Lemma page_proceeds (w : widgets) (l : list event) (text_to_use : pystr) :
  pressed w = true -> truthy (strip (typed w)) = true ->
  normalize (typed w) = (l, Done text_to_use) ->
  page' w = (header ++ l ++ fst (classify' (task_name (selected w)) text_to_use),
             snd (classify' (task_name (selected w)) text_to_use)).
Proof.
  intros Hp Ht H. rewrite page_request by (rewrite Hp, Ht; reflexivity).
  unfold serve. rewrite H. unfold bind.
  destruct (classify' (task_name (selected w)) text_to_use). reflexivity.
Qed.

(** Observations distribute over the three parts of a log. *)
Lemma flat_map_parts {A : Type} (f : event -> list A) (l1 l2 l3 : list event) :
  flat_map f (l1 ++ l2 ++ l3) = flat_map f l1 ++ flat_map f l2 ++ flat_map f l3.
Proof. rewrite !flat_map_app. reflexivity. Qed.

(** The three ways a run of the page can go. *)
Lemma page_cases (w : widgets) :
  (pressed w && truthy (strip (typed w)) = false /\
   page' w = (header ++ [StInfo prompt], Done tt))
  \/
  (exists l : list event,
     quiet l /\ page' w = (header ++ l, Stopped))
  \/
  (exists (l : list event) (text_to_use : pystr),
     quiet l /\
     pressed w = true /\ truthy (strip (typed w)) = true /\
     normalize (typed w) = (l, Done text_to_use) /\
     page' w = (header ++ l ++ fst (classify' (task_name (selected w)) text_to_use),
                snd (classify' (task_name (selected w)) text_to_use))).
Proof.
  destruct (pressed w) eqn:Hp; [|left; split; [reflexivity|]; apply page_idle; rewrite Hp; reflexivity].
  destruct (truthy (strip (typed w))) eqn:Ht;
    [|left; split; [reflexivity|]; apply page_idle; rewrite Hp, Ht; reflexivity].
  right.
  destruct (detect (typed w)) as [lang|e] eqn:Hd.
  - destruct (String.eqb_spec lang "en") as [->|Hl].
    + right. pose proof (normalize_english _ Hd) as En.
      eexists _, _. split; [|split; [reflexivity|split; [reflexivity|split; [exact En|]]]].
      * repeat split; reflexivity.
      * apply page_proceeds; assumption.
    + destruct (translate "auto" "en" (typed w)) as [translated|e] eqn:Htr.
      * right. pose proof (normalize_translates _ lang translated Hd Hl Htr) as En.
        eexists _, _. split; [|split; [reflexivity|split; [reflexivity|split; [exact En|]]]].
        -- repeat split; reflexivity.
        -- apply page_proceeds; assumption.
      * left. pose proof (normalize_translate_fails _ lang e Hd Hl Htr) as En.
        eexists. split; [|apply (page_stopped w _ Hp Ht En)].
        repeat split; reflexivity.
  - left. pose proof (normalize_detect_fails _ e Hd) as En.
    eexists. split; [|apply (page_stopped w _ Hp Ht En)].
    repeat split; reflexivity.
Qed.

Lemma In_classifications (p : pipe_name) (t : pystr) (l : list event) :
  In (CallClassifier p t) l -> In (p, t) (classifications l).
Proof.
  intros H. unfold classifications. apply in_flat_map.
  exists (CallClassifier p t). split; [exact H|left; reflexivity].
Qed.

(** A classification ends well only if the classifier gave at least one
    label for the input. *)
Lemma classify_done (t : Task) (text : pystr) :
  snd (classify' (task_name t) text) = Done tt ->
  exists (r : record) (raw : list record) (rest : list (list record)),
    pipe_of t text = Returns ((r :: raw) :: rest).
Proof.
  destruct (pipe_of t text) as [[|[|r raw] rest]|e] eqn:H.
  - rewrite (classify_no_answer t text H). discriminate.
  - destruct (classify_no_label t text _ H) as [e [E _]]. rewrite E. discriminate.
  - eauto.
  - rewrite (classify_raises t text _ H). discriminate.
Qed.

(** ** Tables and charts, entry by entry *)

Lemma zip_entries (t : Task) (raw : list record) :
  zip (map CStr (map (fun r => display_label t (label r)) raw))
      (map CFloat (map (fun r => confidence t (score r)) raw))
  = map (entry t) raw.
Proof. induction raw as [|r raw IH]; simpl; [reflexivity|]. rewrite IH. reflexivity. Qed.

Lemma table_rows_shown (t : Task) (raw : list record) :
  table_rows (shown_frame t raw) = map (entry t) raw.
Proof. apply zip_entries. Qed.

Lemma sectors_shown (t : Task) (raw : list record) :
  sectors (shown_figure t raw) = map (entry t) raw.
Proof. apply zip_entries. Qed.

Lemma tables_of_page (l c : list event) :
  quiet l -> tables (header ++ l ++ c) = tables c.
Proof.
  intros (_ & H & _ & _). unfold tables in *. rewrite flat_map_parts, H. reflexivity.
Qed.

Lemma charts_of_page (l c : list event) :
  quiet l -> charts (header ++ l ++ c) = charts c.
Proof.
  intros (_ & _ & H & _). unfold charts in *. rewrite flat_map_parts, H. reflexivity.
Qed.

Lemma steps_of_page (l c : list event) :
  steps (header ++ l ++ c) = steps l ++ steps c.
Proof. unfold steps. rewrite !filter_app. reflexivity. Qed.

Lemma classifications_of_page (l c : list event) :
  quiet l -> classifications (header ++ l ++ c) = classifications c.
Proof.
  intros (H & _ & _ & _). unfold classifications in *. rewrite flat_map_parts, H. reflexivity.
Qed.

(** What the classification block shows, for any first answer [raw] of the
    classifier. *)
Lemma classify_results (t : Task) (text : pystr) (raw : list record)
    (rest : list (list record)) :
  pipe_of t text = Returns (raw :: rest) ->
  (forall df : DataFrame,
     In df (tables (fst (classify' (task_name t) text))) ->
     table_rows df = map (entry t) raw) /\
  (forall fig : Figure,
     In fig (charts (fst (classify' (task_name t) text))) ->
     sectors fig = map (entry t) raw) /\
  (raw <> [] ->
     tables (fst (classify' (task_name t) text)) = [shown_frame t raw] /\
     charts (fst (classify' (task_name t) text)) = [shown_figure t raw] /\
     snd (classify' (task_name t) text) = Done tt).
Proof.
  intros H. destruct raw as [|r raw].
  - destruct (classify_no_label t text _ H) as [e [_ [E|E]]]; rewrite E;
      (split; [|split]); simpl; try tauto.
    intros df [<-|[]]. reflexivity.
  - rewrite (classify_shows t text r raw rest H). split; [|split]; simpl.
    + intros df [<-|[]]. apply table_rows_shown.
    + intros fig [<-|[]]. apply sectors_shown.
    + intros _. repeat split; reflexivity.
Qed.

(** ** Blank text *)

Lemma lstrip_blank (s : pystr) : forallb isspace s = true -> lstrip s = [].
Proof.
  induction s as [|c s IH]; simpl; [reflexivity|].
  intros H. apply andb_prop in H as [Hc Hs]. rewrite Hc. auto.
Qed.

Lemma strip_blank (s : pystr) : forallb isspace s = true -> strip s = [].
Proof. intros H. unfold strip, rstrip. rewrite (lstrip_blank s H). reflexivity. Qed.

(** C9. When the text area is empty or holds only whitespace, the run, with
    the button pressed or not, shows the headings, the widgets and the
    prompt, and calls neither the detector, nor the translator, nor any
    classifier. *)
Theorem blank_text_runs_no_step (w : widgets) :
  forallb isspace (typed w) = true ->
  page' w = (header ++ [StInfo prompt], Done tt) /\
  steps (fst (page' w)) = [].
Proof.
  intros H.
  assert (E : page' w = (header ++ [StInfo prompt], Done tt)).
  { apply page_idle. rewrite (strip_blank _ H). apply andb_false_r. }
  split; [exact E|]. rewrite E. reflexivity.
Qed.

(** ** The news label mapping *)

Example news_label_2 : dict_get NEWS_LABEL_MAP "LABEL_2" "LABEL_2" = "Business".
Proof. vm_compute. reflexivity. Qed.

Example news_label_9 : dict_get NEWS_LABEL_MAP "LABEL_9" "LABEL_9" = "LABEL_9".
Proof. vm_compute. reflexivity. Qed.

Lemma news_lookup (l v : string) :
  NEWS_LABEL_MAP !! l = Some v ->
  l = "LABEL_0" /\ v = "World" \/ l = "LABEL_1" /\ v = "Sports" \/
  l = "LABEL_2" /\ v = "Business" \/ l = "LABEL_3" /\ v = "Sci/Tech".
Proof.
  unfold NEWS_LABEL_MAP. rewrite !lookup_insert, lookup_empty.
  repeat case_decide; intros E; inversion E; subst; auto 10.
Qed.

Lemma news_lookup_other (l : string) :
  l <> "LABEL_0" -> l <> "LABEL_1" -> l <> "LABEL_2" -> l <> "LABEL_3" ->
  NEWS_LABEL_MAP !! l = None.
Proof.
  intros. destruct (NEWS_LABEL_MAP !! l) as [v|] eqn:E; [|reflexivity].
  apply news_lookup in E as [[-> _]|[[-> _]|[[-> _]|[-> _]]]]; congruence.
Qed.

(** C6. Looking a label up in [NEWS_LABEL_MAP] with itself as the default,
    twice, gives what one lookup gives. *)
Theorem news_remap_idempotent (l : string) :
  dict_get NEWS_LABEL_MAP (dict_get NEWS_LABEL_MAP l l) (dict_get NEWS_LABEL_MAP l l)
  = dict_get NEWS_LABEL_MAP l l.
Proof.
  unfold dict_get at 2 3 4. destruct (NEWS_LABEL_MAP !! l) as [v|] eqn:E.
  - apply news_lookup in E as [[_ ->]|[[_ ->]|[[_ ->]|[_ ->]]]]; reflexivity.
  - unfold dict_get. rewrite E. reflexivity.
Qed.

(** C5. The four internal codes of the news model are shown as World,
    Sports, Business and Sci/Tech; any other label is shown as it is; and
    the table of a task shows the remapped labels for the news task and the
    raw labels for sentiment and toxicity. *)
Theorem news_labels_remapped_others_untouched :
  (dict_get NEWS_LABEL_MAP "LABEL_0" "LABEL_0" = "World" /\
   dict_get NEWS_LABEL_MAP "LABEL_1" "LABEL_1" = "Sports" /\
   dict_get NEWS_LABEL_MAP "LABEL_2" "LABEL_2" = "Business" /\
   dict_get NEWS_LABEL_MAP "LABEL_3" "LABEL_3" = "Sci/Tech") /\
  (forall l : string,
     NEWS_LABEL_MAP !! l = None -> dict_get NEWS_LABEL_MAP l l = l) /\
  (forall l : string,
     l <> "LABEL_0" -> l <> "LABEL_1" -> l <> "LABEL_2" -> l <> "LABEL_3" ->
     dict_get NEWS_LABEL_MAP l l = l) /\
  (forall (t : Task) (text : pystr) (r : record) (raw : list record)
          (rest : list (list record)),
     pipe_of t text = Returns ((r :: raw) :: rest) ->
     exists confidences : Series,
       tables (fst (classify' (task_name t) text)) =
         [[(label_column t,
            StrSeries (map (fun r : record =>
                              match t with
                              | NewsCategoryClassification =>
                                  dict_get NEWS_LABEL_MAP (label r) (label r)
                              | _ => label r
                              end) (r :: raw)));
           ("Confidence (%)", confidences)]]).
Proof using numpy_round builtin_round sentiment_pipe toxic_pipe category_pipe.
  split; [|split; [|split]].
  - repeat split; vm_compute; reflexivity.
  - intros l E. unfold dict_get. rewrite E. reflexivity.
  - intros l H0 H1 H2 H3. unfold dict_get.
    rewrite (news_lookup_other l H0 H1 H2 H3). reflexivity.
  - intros t text r raw rest H. rewrite (classify_shows t text r raw rest H).
    exists (shown_values t (r :: raw)). destruct t; reflexivity.
Qed.

(** ** Failures of detection and translation *)

(** C1. On a request (button pressed, text not blank): if the detector
    raises, the run shows the detection error and stops, having called
    neither the translator nor a classifier; if the translator raises, the
    run shows the translation error and stops, having called no classifier.
    In both cases nothing follows the error message but the removal of the
    spinner. *)
Theorem errors_halt_the_request (w : widgets) :
  pressed w = true -> truthy (strip (typed w)) = true ->
  (forall e : exn,
     detect (typed w) = Raises e ->
     page' w =
       (header ++
        [detecting; CallDetect (typed w);
         StError [Lit "❌ Error detecting language: "; str e]; SpinnerExit],
        Stopped) /\
     steps (fst (page' w)) = [CallDetect (typed w)]) /\
  (forall (lang : string) (e : exn),
     detect (typed w) = Returns lang -> lang <> "en" ->
     translate "auto" "en" (typed w) = Raises e ->
     page' w =
       (header ++
        [detecting; CallDetect (typed w); CallTranslate "auto" "en" (typed w);
         StError [Lit "❌ Translation failed: "; str e]; SpinnerExit],
        Stopped) /\
     steps (fst (page' w)) =
       [CallDetect (typed w); CallTranslate "auto" "en" (typed w)]).
Proof.
  intros Hp Ht. split.
  - intros e Hd.
    rewrite (page_stopped w _ Hp Ht (normalize_detect_fails _ e Hd)).
    split; reflexivity.
  - intros lang e Hd Hl Htr.
    rewrite (page_stopped w _ Hp Ht (normalize_translate_fails _ lang e Hd Hl Htr)).
    split; reflexivity.
Qed.

(** ** Which text reaches the classifier *)

(** C2. On a request whose text the detector reports as ['en'], the
    translator is not called, and the selected classifier is called, once,
    on the text exactly as typed: the steps of the run are the detection and
    that classification. *)
Theorem english_text_is_classified_unchanged (w : widgets) :
  pressed w = true -> truthy (strip (typed w)) = true ->
  detect (typed w) = Returns "en" ->
  fst (normalize (typed w)) =
    [detecting; CallDetect (typed w);
     StMarkdown [Lit "✅ Input is in English. No translation needed."]; SpinnerExit] /\
  snd (normalize (typed w)) = Done (typed w) /\
  translations (fst (page' w)) = [] /\
  classifications (fst (page' w)) = [(pipe_id (selected w), typed w)] /\
  steps (fst (page' w)) =
    [CallDetect (typed w); CallClassifier (pipe_id (selected w)) (typed w)].
Proof.
  intros Hp Ht Hd. pose proof (normalize_english _ Hd) as En.
  assert (Hq : quiet (fst (normalize (typed w)))) by (rewrite En; repeat split; reflexivity).
  pose proof (page_proceeds w _ _ Hp Ht En) as E. rewrite <- (f_equal fst En) in E at 1.
  assert (Hc : classifications (fst (page' w)) = [(pipe_id (selected w), typed w)]).
  { rewrite E. unfold fst at 1.
    rewrite classifications_of_page by exact Hq. apply classify_classifications. }
  assert (Hx : translations (fst (page' w)) = []).
  { rewrite E, En. unfold fst at 1 2.
    unfold translations. rewrite flat_map_parts.
    fold (translations (fst (classify' (task_name (selected w)) (typed w)))).
    rewrite classify_translations. reflexivity. }
  assert (Hs : steps (fst (page' w)) =
               [CallDetect (typed w); CallClassifier (pipe_id (selected w)) (typed w)]).
  { rewrite E, En. unfold fst at 1 2.
    rewrite steps_of_page, classify_steps. reflexivity. }
  rewrite En, Hc, Hx, Hs. repeat split.
Qed.

(** C3, as amended.  On a request whose text the detector reports in
    another language than ['en'] and the translator translates, the
    translator is called on the text as typed, and the selected classifier
    is called, once, on the translator's answer: the typed text reaches no
    classifier, unless the translator's answer is that very text. *)
Theorem translated_text_is_classified (w : widgets) (lang : string) (translated : pystr) :
  pressed w = true -> truthy (strip (typed w)) = true ->
  detect (typed w) = Returns lang -> lang <> "en" ->
  translate "auto" "en" (typed w) = Returns translated ->
  snd (normalize (typed w)) = Done translated /\
  translations (fst (page' w)) = [typed w] /\
  classifications (fst (page' w)) = [(pipe_id (selected w), translated)] /\
  steps (fst (page' w)) =
    [CallDetect (typed w); CallTranslate "auto" "en" (typed w);
     CallClassifier (pipe_id (selected w)) translated] /\
  (translated <> typed w ->
   forall p : pipe_name, ~ In (p, typed w) (classifications (fst (page' w)))).
Proof.
  intros Hp Ht Hd Hl Htr.
  pose proof (normalize_translates _ lang translated Hd Hl Htr) as En.
  assert (Hq : quiet (fst (normalize (typed w)))) by (rewrite En; repeat split; reflexivity).
  pose proof (page_proceeds w _ _ Hp Ht En) as E. rewrite <- (f_equal fst En) in E at 1.
  assert (Hc : classifications (fst (page' w)) = [(pipe_id (selected w), translated)]).
  { rewrite E. unfold fst at 1.
    rewrite classifications_of_page by exact Hq. apply classify_classifications. }
  assert (Hx : translations (fst (page' w)) = [typed w]).
  { rewrite E, En. unfold fst at 1 2.
    unfold translations. rewrite flat_map_parts.
    fold (translations (fst (classify' (task_name (selected w)) translated))).
    rewrite classify_translations. reflexivity. }
  assert (Hs : steps (fst (page' w)) =
               [CallDetect (typed w); CallTranslate "auto" "en" (typed w);
                CallClassifier (pipe_id (selected w)) translated]).
  { rewrite E, En. unfold fst at 1 2.
    rewrite steps_of_page, classify_steps. reflexivity. }
  rewrite En, Hc, Hx, Hs. repeat split.
  intros Hne p [Heq|[]]. injection Heq as _ Heq. exact (Hne Heq).
Qed.

(** ** Order of the results *)

(** C7. Whenever a run of the page calls the classifier of the selected
    task on some text and that classifier answers with the sequence [raw],
    every table and every chart of the run holds, position by position, one
    entry per element of [raw], in the order of [raw]: the displayed label
    and the displayed confidence of that element.  When [raw] is not empty
    the run shows exactly one such table and one such chart and ends
    normally. *)
Theorem results_keep_classifier_order (w : widgets) (text_to_use : pystr)
    (raw : list record) (rest : list (list record)) :
  In (CallClassifier (pipe_id (selected w)) text_to_use) (fst (page' w)) ->
  pipe_of (selected w) text_to_use = Returns (raw :: rest) ->
  (forall df : DataFrame,
     In df (tables (fst (page' w))) ->
     table_rows df = map (entry (selected w)) raw) /\
  (forall fig : Figure,
     In fig (charts (fst (page' w))) ->
     sectors fig = map (entry (selected w)) raw) /\
  (raw <> [] ->
     tables (fst (page' w)) = [shown_frame (selected w) raw] /\
     charts (fst (page' w)) = [shown_figure (selected w) raw] /\
     snd (page' w) = Done tt).
Proof.
  intros Hin Hraw. apply In_classifications in Hin.
  destruct (page_cases w) as [[_ E]|[(l & Hq & E)|(l & txt & Hq & _ & _ & _ & E)]];
    rewrite E in Hin |- *; unfold fst at 1 in Hin.
  - contradiction Hin.
  - destruct Hq as (Hc & _). unfold classifications in *.
    rewrite flat_map_app, Hc in Hin. contradiction Hin.
  - rewrite classifications_of_page, classify_classifications in Hin by exact Hq.
    destruct Hin as [Heq|[]]. injection Heq as <-.
    unfold fst at 1 3 5 7, snd at 1.
    rewrite !tables_of_page, !charts_of_page by exact Hq.
    apply (classify_results _ _ _ _ Hraw).
Qed.

(** The rows of every table and the sectors of every chart of a run, for
    any first answer [raw] of the classifier that was called. *)
Lemma page_results (w : widgets) (text_to_use : pystr)
    (raw : list record) (rest : list (list record)) :
  In (CallClassifier (pipe_id (selected w)) text_to_use) (fst (page' w)) ->
  pipe_of (selected w) text_to_use = Returns (raw :: rest) ->
  (forall rows : list (cell * cell),
     (exists df, In df (tables (fst (page' w))) /\ rows = table_rows df) \/
     (exists fig, In fig (charts (fst (page' w))) /\ rows = sectors fig) ->
     rows = map (entry (selected w)) raw) /\
  (raw <> [] -> tables (fst (page' w)) <> [] /\ charts (fst (page' w)) <> []).
Proof.
  intros Hin Hraw. apply In_classifications in Hin.
  destruct (page_cases w) as [[_ E]|[(l & Hq & E)|(l & txt & Hq & _ & _ & _ & E)]];
    rewrite E in Hin |- *; unfold fst at 1 in Hin.
  - contradiction Hin.
  - destruct Hq as (Hc & _). unfold classifications in *.
    rewrite flat_map_app, Hc in Hin. contradiction Hin.
  - rewrite classifications_of_page, classify_classifications in Hin by exact Hq.
    destruct Hin as [Heq|[]]. injection Heq as <-.
    unfold fst at 1 3 5 7.
    rewrite !tables_of_page, !charts_of_page by exact Hq.
    destruct (classify_results _ _ _ _ Hraw) as (Ht & Hc & Hne).
    split.
    + intros rows [(df & Hdf & ->)|(fig & Hfig & ->)]; auto.
    + intros H. destruct (Hne H) as (-> & -> & _). split; discriminate.
Qed.

(** ** Table and chart *)

(** C10. On a request that ends normally, the run shows one table and one
    chart, the chart right after the table; the chart is built from the
    columns of the frame shown as the table, and its sectors are the
    table's rows: same labels, same confidences, same order. *)
Theorem table_and_chart_show_the_same (w : widgets) :
  pressed w = true -> truthy (strip (typed w)) = true ->
  snd (page' w) = Done tt ->
  exists (df : DataFrame) (fig : Figure) (before : list event),
    fst (page' w) = before ++ [StDataframe df; StPlotlyChart fig; SpinnerExit] /\
    tables (fst (page' w)) = [df] /\
    charts (fst (page' w)) = [fig] /\
    getitem df (label_column (selected w)) = Returns (labels fig) /\
    getitem df "Confidence (%)" = Returns (values fig) /\
    sectors fig = table_rows df /\
    length (sectors fig) = len df.
Proof.
  intros Hp Ht Hdone.
  destruct (page_cases w) as [[F _]|[(l & Hq & E)|(l & txt & Hq & _ & _ & _ & E)]].
  - rewrite Hp, Ht in F. discriminate.
  - rewrite E in Hdone. discriminate.
  - rewrite E in Hdone |- *. unfold snd at 1 in Hdone.
    destruct (classify_done _ _ Hdone) as (r & raw & rest & Hraw).
    unfold fst at 1 3 5.
    rewrite tables_of_page, charts_of_page by exact Hq.
    rewrite (classify_shows _ _ _ _ _ Hraw).
    exists (shown_frame (selected w) (r :: raw)), (shown_figure (selected w) (r :: raw)).
    eexists (header ++ l ++ [_; _; _]).
    split; [rewrite <- !app_assoc; reflexivity|].
    split; [reflexivity|]. split; [reflexivity|].
    split; [destruct (selected w); reflexivity|].
    split; [destruct (selected w); reflexivity|].
    split; [rewrite sectors_shown, table_rows_shown; reflexivity|].
    rewrite sectors_shown. simpl. rewrite !length_map. reflexivity.
Qed.

(** ** Model loading *)

Lemma classify_loads (t : Task) (text : pystr) :
  loads (fst (classify' (task_name t) text)) = [].
Proof. classify_cases t text; reflexivity. Qed.

(** The page itself never constructs a model. *)
Lemma page_loads (w : widgets) : loads (fst (page' w)) = [].
Proof.
  destruct (page_cases w) as [[_ E]|[(l & Hq & E)|(l & txt & Hq & _ & _ & _ & E)]];
    rewrite E; unfold fst at 1.
  - reflexivity.
  - destruct Hq as (_ & _ & _ & Hl). unfold loads in *.
    rewrite flat_map_app, Hl. reflexivity.
  - destruct Hq as (_ & _ & _ & Hl). unfold loads in *.
    rewrite flat_map_parts, Hl. apply classify_loads.
Qed.

(** ** Every run of the page, in full *)

(** [strip] leaves something exactly when the text is not blank. *)
Lemma truthy_lstrip (s : pystr) : truthy (lstrip s) = nonblank s.
Proof.
  induction s as [|c s IH]; simpl; [reflexivity|].
  destruct (isspace c); simpl; [exact IH|reflexivity].
Qed.

Lemma nonblank_lstrip (s : pystr) : nonblank (lstrip s) = nonblank s.
Proof.
  induction s as [|c s IH]; simpl; [reflexivity|].
  destruct (isspace c) eqn:E; simpl; [exact IH|rewrite E; reflexivity].
Qed.

Lemma truthy_strip (s : pystr) : truthy (strip s) = nonblank s.
Proof.
  unfold strip, rstrip.
  assert (R : forall l : pystr, truthy (rev l) = truthy l).
  { intros [|c l]; [reflexivity|]. simpl. destruct (rev l); reflexivity. }
  assert (N : forall l : pystr, nonblank (rev l) = nonblank l).
  { induction l as [|c l IH]; [reflexivity|]. unfold nonblank in *. simpl.
    rewrite existsb_app, IH. simpl. rewrite orb_false_r. apply orb_comm. }
  rewrite R, truthy_lstrip, N. apply nonblank_lstrip.
Qed.

Definition english_note : event :=
  StMarkdown [Lit "✅ Input is in English. No translation needed."].

Definition translation_note (lang : string) (translated : pystr) : event :=
  StMarkdown [Lit "🌐 **Detected Language**: `"; Lit lang;
              Lit "` → Translated to English:"; Lit newline;
              Lit "> _"; Fmt translated; Lit "_"].

(** The five ways a run of the page can go, each with its whole log. *)
Lemma page_runs (w : widgets) :
  (pressed w && nonblank (typed w) = false /\
   page' w = (header ++ [StInfo prompt], Done tt))
  \/
  (pressed w && nonblank (typed w) = true /\
   exists e : exn,
     detect (typed w) = Raises e /\
     page' w =
       (header ++
        [detecting; CallDetect (typed w);
         StError [Lit "❌ Error detecting language: "; str e]; SpinnerExit],
        Stopped))
  \/
  (pressed w && nonblank (typed w) = true /\
   exists (lang : string) (e : exn),
     detect (typed w) = Returns lang /\ lang <> "en" /\
     translate "auto" "en" (typed w) = Raises e /\
     page' w =
       (header ++
        [detecting; CallDetect (typed w); CallTranslate "auto" "en" (typed w);
         StError [Lit "❌ Translation failed: "; str e]; SpinnerExit],
        Stopped))
  \/
  (pressed w && nonblank (typed w) = true /\
   detect (typed w) = Returns "en" /\
   page' w =
     (header ++
      [detecting; CallDetect (typed w); english_note; SpinnerExit] ++
      fst (classify' (task_name (selected w)) (typed w)),
      snd (classify' (task_name (selected w)) (typed w))))
  \/
  (pressed w && nonblank (typed w) = true /\
   exists (lang : string) (translated : pystr),
     detect (typed w) = Returns lang /\ lang <> "en" /\
     translate "auto" "en" (typed w) = Returns translated /\
     page' w =
       (header ++
        [detecting; CallDetect (typed w); CallTranslate "auto" "en" (typed w);
         translation_note lang translated; SpinnerExit] ++
        fst (classify' (task_name (selected w)) translated),
        snd (classify' (task_name (selected w)) translated))).
Proof.
  rewrite <- truthy_strip.
  destruct (pressed w) eqn:Hp;
    [|left; split; [reflexivity|]; apply page_idle; rewrite Hp; reflexivity].
  destruct (truthy (strip (typed w))) eqn:Ht;
    [|left; split; [reflexivity|]; apply page_idle; rewrite Hp, Ht; reflexivity].
  right. destruct (detect (typed w)) as [lang|e] eqn:Hd.
  - right. destruct (String.eqb_spec lang "en") as [->|Hl].
    + right. left. split; [reflexivity|]. split; [reflexivity|].
      apply (page_proceeds w _ _ Hp Ht (normalize_english _ Hd)).
    + destruct (translate "auto" "en" (typed w)) as [translated|e] eqn:Htr.
      * right. right. split; [reflexivity|]. exists lang, translated.
        split; [reflexivity|]. split; [exact Hl|]. split; [reflexivity|].
        apply (page_proceeds w _ _ Hp Ht (normalize_translates _ _ _ Hd Hl Htr)).
      * left. split; [reflexivity|]. exists lang, e.
        split; [reflexivity|]. split; [exact Hl|]. split; [reflexivity|].
        apply (page_stopped w _ Hp Ht (normalize_translate_fails _ _ _ Hd Hl Htr)).
  - left. split; [reflexivity|]. exists e. split; [reflexivity|].
    apply (page_stopped w _ Hp Ht (normalize_detect_fails _ e Hd)).
Qed.

Ltac answer_cases t text :=
  let Hpipe := fresh "Hpipe" in
  destruct (pipe_of t text) as [[|[|? ?] ?]|?] eqn:Hpipe;
  [ rewrite (classify_no_answer t text Hpipe)
  | let X := fresh "X" in
    let Y := fresh "Y" in
    destruct (classify_no_label t text _ Hpipe) as (? & Y & [X|X]); rewrite ?X, ?Y
  | rewrite (classify_shows t text _ _ _ Hpipe)
  | rewrite (classify_raises t text _ Hpipe) ].

Ltac run_cases w :=
  destruct (page_runs w) as
    [[G E]
    |[[G (e & Hd & E)]
     |[[G (lang & e & Hd & Hl & Htr & E)]
      |[[G [Hd E]]
       |[G (lang & translated & Hd & Hl & Htr & E)]]]]];
  rewrite E; cbn [fst snd].

(** ** When a request is served *)

(** X1. The run calls the outside world exactly when the button is pressed
    and the text holds a code point that is not whitespace; it shows the
    prompt exactly when it does not. *)
Theorem request_guard (w : widgets) :
  (steps (fst (page' w)) = [] <-> pressed w && nonblank (typed w) = false) /\
  (infos (fst (page' w)) = [prompt] <-> pressed w && nonblank (typed w) = false).
Proof.
  run_cases w; rewrite G; try rewrite steps_of_page.
  - split; split; reflexivity.
  - split; split; discriminate.
  - split; split; discriminate.
  - split; split; try discriminate.
    answer_cases (selected w) (typed w); discriminate.
  - split; split; try discriminate.
    answer_cases (selected w) translated; discriminate.
Qed.

(** X2. The steps of a run of the page (the script below the model
    loading, with the three classifiers at hand) are a straight line.  No
    step at all when there is no request.  Otherwise detection on the text
    as typed (not stripped); then, exactly when the detected language is
    not ['en'], translation of that same text from ['auto'] to ['en'];
    then one call of the classifier of the selected task, on the typed
    text or on the translation.  The line stops after a step that fails. *)
Theorem pipeline_is_linear (w : widgets) :
  (pressed w && nonblank (typed w) = false /\
   steps (fst (page' w)) = [] /\ snd (page' w) = Done tt)
  \/
  (pressed w && nonblank (typed w) = true /\
   steps (fst (page' w)) = [CallDetect (typed w)] /\ snd (page' w) = Stopped /\
   exists e : exn, detect (typed w) = Raises e)
  \/
  (pressed w && nonblank (typed w) = true /\
   steps (fst (page' w)) =
     [CallDetect (typed w); CallTranslate "auto" "en" (typed w)] /\
   snd (page' w) = Stopped /\
   exists (lang : string) (e : exn),
     detect (typed w) = Returns lang /\ lang <> "en" /\
     translate "auto" "en" (typed w) = Raises e)
  \/
  (pressed w && nonblank (typed w) = true /\
   steps (fst (page' w)) =
     [CallDetect (typed w); CallClassifier (pipe_id (selected w)) (typed w)] /\
   snd (page' w) <> Stopped /\
   detect (typed w) = Returns "en")
  \/
  (pressed w && nonblank (typed w) = true /\
   exists (lang : string) (translated : pystr),
     detect (typed w) = Returns lang /\ lang <> "en" /\
     translate "auto" "en" (typed w) = Returns translated /\
     steps (fst (page' w)) =
       [CallDetect (typed w); CallTranslate "auto" "en" (typed w);
        CallClassifier (pipe_id (selected w)) translated] /\
     snd (page' w) <> Stopped).
Proof.
  run_cases w.
  - left. repeat split; [exact G].
  - right. left. repeat split; [exact G|]. exists e. exact Hd.
  - right. right. left. repeat split; [exact G|]. exists lang, e.
    repeat split; assumption.
  - right. right. right. left. rewrite steps_of_page, classify_steps.
    split; [exact G|]. split; [reflexivity|]. split; [|exact Hd].
    answer_cases (selected w) (typed w); discriminate.
  - right. right. right. right. split; [exact G|]. exists lang, translated.
    rewrite steps_of_page, classify_steps.
    split; [exact Hd|]. split; [exact Hl|]. split; [exact Htr|].
    split; [reflexivity|].
    answer_cases (selected w) translated; discriminate.
Qed.

(** ** Failures of the classifier *)

(** X3. An exception raised by the selected classifier is not caught: the
    run ends with that exception, and the script itself shows no error
    message, no table and no chart. *)
Theorem classifier_exception_escapes (w : widgets) (text_to_use : pystr) (err : exn) :
  In (CallClassifier (pipe_id (selected w)) text_to_use) (fst (page' w)) ->
  pipe_of (selected w) text_to_use = Raises err ->
  snd (page' w) = Raised err /\
  errors (fst (page' w)) = [] /\
  tables (fst (page' w)) = [] /\
  charts (fst (page' w)) = [].
Proof.
  intros Hin Hr. apply In_classifications in Hin. revert Hin.
  run_cases w; try (intros []; fail).
  - rewrite classifications_of_page, classify_classifications
      by (repeat split; reflexivity).
    intros [Heq|[]]. injection Heq as <-.
    rewrite (classify_raises _ _ _ Hr). repeat split; reflexivity.
  - rewrite classifications_of_page, classify_classifications
      by (repeat split; reflexivity).
    intros [Heq|[]]. injection Heq as <-.
    rewrite (classify_raises _ _ _ Hr). repeat split; reflexivity.
Qed.

(** X4. A run of the page (the script below the model loading, with the
    three classifiers at hand) ends by [st.stop()] exactly when it has
    shown an error message, and then it has shown exactly one; otherwise
    it has shown none.  An exception leaves the page only after a
    classifier was called: what the detector and the translator raise
    never escapes. *)
Theorem stops_and_error_messages (w : widgets) :
  (snd (page' w) = Stopped <-> exists m : message, errors (fst (page' w)) = [m]) /\
  (snd (page' w) <> Stopped -> errors (fst (page' w)) = []) /\
  (forall e : exn,
     snd (page' w) = Raised e ->
     exists text_to_use : pystr,
       classifications (fst (page' w)) = [(pipe_id (selected w), text_to_use)]).
Proof.
  run_cases w.
  - split; [split; [discriminate|intros [m Hm]; discriminate]|].
    split; [reflexivity|discriminate].
  - split; [split; [eauto|reflexivity]|]. split; [congruence|discriminate].
  - split; [split; [eauto|reflexivity]|]. split; [congruence|discriminate].
  - rewrite classifications_of_page, classify_classifications
      by (repeat split; reflexivity).
    split; [|split; [|eauto]];
      answer_cases (selected w) (typed w);
      try (split; [discriminate|intros [m Hm]; discriminate]); reflexivity.
  - rewrite classifications_of_page, classify_classifications
      by (repeat split; reflexivity).
    split; [|split; [|eauto]];
      answer_cases (selected w) translated;
      try (split; [discriminate|intros [m Hm]; discriminate]); reflexivity.
Qed.

(** ** Layout of the log *)

Lemma bracketed_app (inside : bool) (l1 l2 : list event) :
  bracketed inside l1 = true -> bracketed inside (l1 ++ l2) = bracketed false l2.
Proof.
  revert inside. induction l1 as [|ev l1 IH]; intros inside H.
  - destruct inside; [discriminate|reflexivity].
  - destruct ev; simpl in *; try (apply IH; exact H).
    + apply andb_prop in H as [H1 H2]. rewrite H1. simpl. apply IH. exact H2.
    + apply andb_prop in H as [H1 H2]. rewrite H1. simpl. apply IH. exact H2.
Qed.

(** X5. Every run of the page (the script below the model loading, with
    the three classifiers at hand) draws the two headings and the three
    widgets first, whatever happens afterwards in the page, and its
    spinners are well bracketed: one at a time, each removed before the
    page ends, also when it stops or an exception escapes. *)
Theorem page_layout (w : widgets) :
  (exists rest : list event, fst (page' w) = header ++ rest) /\
  bracketed false (fst (page' w)) = true.
Proof.
  run_cases w.
  - split; [eauto|reflexivity].
  - split; [eauto|reflexivity].
  - split; [eauto|reflexivity].
  - split; [eauto|]. answer_cases (selected w) (typed w); reflexivity.
  - split; [eauto|]. answer_cases (selected w) translated; reflexivity.
Qed.

(** X6. A run shows at most one table and at most one chart, and never a
    chart without the table. *)
Theorem at_most_one_table_and_chart (w : widgets) :
  length (charts (fst (page' w))) <= length (tables (fst (page' w))) /\
  length (tables (fst (page' w))) <= 1.
Proof.
  run_cases w; try (simpl; lia).
  - answer_cases (selected w) (typed w); simpl; lia.
  - answer_cases (selected w) translated; simpl; lia.
Qed.

Ltac in_log H :=
  unfold header, english_note, translation_note, detecting; simpl;
  intros H; repeat destruct H as [H|H].

(** X7. The language notes tell what happened: the English note is in the
    log exactly when the request passed detection with ['en'], and a
    translation note, which quotes the detected code and the translated
    text, exactly when the translator returned that text for that code. *)
Theorem notes_tell_what_happened (w : widgets) :
  (In english_note (fst (page' w)) <->
   pressed w && nonblank (typed w) = true /\ detect (typed w) = Returns "en") /\
  (forall (lang : string) (translated : pystr),
     In (translation_note lang translated) (fst (page' w)) <->
     pressed w && nonblank (typed w) = true /\
     detect (typed w) = Returns lang /\ lang <> "en" /\
     translate "auto" "en" (typed w) = Returns translated).
Proof.
  run_cases w.
  - split; [|intros l t]; (split; [|rewrite G; intros [? _]; discriminate]);
      in_log H; discriminate || contradiction.
  - split; [|intros l t].
    + split; [|rewrite Hd; intros [_ Hx]; discriminate].
      in_log H; discriminate || contradiction.
    + split; [|rewrite Hd; intros (_ & Hx & _); discriminate].
      in_log H; discriminate || contradiction.
  - split; [|intros l t].
    + split; [|rewrite Hd; intros (_ & Heq); injection Heq as ->; contradiction].
      in_log H; discriminate || contradiction.
    + split; [|rewrite Htr; intros (_ & _ & _ & ?); discriminate].
      in_log H; discriminate || contradiction.
  - split; [|intros l t].
    + split; [intros _; split; assumption|intros _; unfold header; simpl; auto 10].
    + split; [|rewrite Hd; intros (_ & Heq & Hn & _); injection Heq as <-; contradiction].
      answer_cases (selected w) (typed w);
        in_log H; discriminate || contradiction.
  - split; [|intros l t].
    + split; [|rewrite Hd; intros (_ & Heq); injection Heq as ->; contradiction].
      answer_cases (selected w) translated;
        in_log H; discriminate || contradiction.
    + split.
      * answer_cases (selected w) translated;
          in_log H;
          try (discriminate || contradiction);
          injection H as <- <-; repeat split; assumption.
      * rewrite Hd, Htr. intros (_ & Heq & _ & Heq').
        injection Heq as <-. injection Heq' as <-. unfold header. simpl. auto 10.
Qed.

(** ** The classification block at its edges *)

(** X8. The classification block calls a classifier exactly for the three
    tasks of the selector.  For any other task string no branch of the
    [if]/[elif] chain is taken: nothing is called, nothing is shown, and
    the block ends normally. *)
Theorem only_the_three_tasks_classify (task : string) (text : pystr) :
  (~ In task options ->
   classify' task text =
     ([SpinnerEnter [Lit "⚙️ Running classification..."]; SpinnerExit], Done tt)) /\
  (In task options ->
   exists t : Task,
     task = task_name t /\
     steps (fst (classify' task text)) = [CallClassifier (pipe_id t) text]).
Proof.
  split.
  - intros H. unfold classify.
    destruct (String.eqb_spec task "Sentiment Analysis") as [->|_];
      [exfalso; apply H; simpl; auto|].
    destruct (String.eqb_spec task "Toxic Comment Detection") as [->|_];
      [exfalso; apply H; simpl; auto|].
    destruct (String.eqb_spec task "News Category Classification") as [->|_];
      [exfalso; apply H; simpl; auto|].
    reflexivity.
  - intros [<-|[<-|[<-|[]]]].
    + exists SentimentAnalysis. split; [reflexivity|apply (classify_steps SentimentAnalysis text)].
    + exists ToxicCommentDetection. split; [reflexivity|apply (classify_steps ToxicCommentDetection text)].
    + exists NewsCategoryClassification. split; [reflexivity|apply (classify_steps NewsCategoryClassification text)].
Qed.

(** X9. A classifier that answers with no list at all makes [[0]] raise
    IndexError.  One that answers with an empty list of labels makes the
    sentiment and toxicity branches raise KeyError on the missing ['score']
    column before anything is shown, while the news branch shows its
    heading and an empty table and then fails in the chart. *)
Theorem empty_answers_raise (t : Task) (text : pystr) :
  (pipe_of t text = Returns [] ->
   classify' (task_name t) text =
     ([SpinnerEnter [Lit "⚙️ Running classification..."];
       CallClassifier (pipe_id t) text; SpinnerExit],
      Raised (IndexError "list index out of range"))) /\
  (forall rest : list (list record),
     pipe_of t text = Returns ([] :: rest) ->
     classify' (task_name t) text =
       match t with
       | NewsCategoryClassification =>
           ([SpinnerEnter [Lit "⚙️ Running classification..."];
             CallClassifier category_pipe_ text;
             StSubheader [Lit "News Category Results"]; StDataframe [];
             SpinnerExit],
            Raised (ValueError "Value of 'names' or 'values' is not the name of a column"))
       | _ =>
           ([SpinnerEnter [Lit "⚙️ Running classification..."];
             CallClassifier (pipe_id t) text; SpinnerExit],
            Raised (KeyError "score"))
       end).
Proof.
  split; [apply classify_no_answer|].
  intros rest H. destruct t; simpl in H; unfold classify; simpl; rewrite H; reflexivity.
Qed.

(** ** The pie chart *)

(** X10. [plot_pie_chart] shows exactly one chart when the frame has both
    columns: its labels and values are those columns, and it pulls out one
    sector per row of the frame, each by 0.02.  When a column is missing it
    raises and shows nothing. *)
Theorem plot_pie_chart_draws_one_chart (df : DataFrame) (label_col value_col caption : string) :
  (forall l v : Series,
     getitem df label_col = Returns l -> getitem df value_col = Returns v ->
     exists fig : Figure,
       plot_pie_chart df label_col value_col caption = ([StPlotlyChart fig], Done tt) /\
       labels fig = l /\ values fig = v /\
       title fig = caption /\
       length (pull fig) = len df /\
       Forall (fun x => x = 0.02%float) (pull fig)) /\
  ((exists e : exn, getitem df label_col = Raises e) \/
   (exists e : exn, getitem df value_col = Raises e) ->
   exists e : exn,
     plot_pie_chart df label_col value_col caption = ([], Raised e)).
Proof.
  split.
  - intros l v Hl Hv. unfold plot_pie_chart, px_pie. rewrite Hl, Hv. simpl.
    eexists. split; [reflexivity|]. simpl. repeat split.
    + apply repeat_length.
    + induction (len df) as [|n IH]; simpl; constructor; [reflexivity|exact IH].
  - intros [[e He]|[e He]]; unfold plot_pie_chart, px_pie; rewrite He.
    + eexists. reflexivity.
    + destruct (getitem df label_col); eexists; reflexivity.
Qed.

(** ** More on the news labels *)

(** X12. A label is shown unchanged exactly when it is not a key of
    [NEWS_LABEL_MAP], and two different keys are never shown under the same
    name. *)
Theorem news_labels_change_and_stay_apart :
  (forall l : string,
     dict_get NEWS_LABEL_MAP l l = l <-> NEWS_LABEL_MAP !! l = None) /\
  (forall l1 l2 : string,
     is_Some (NEWS_LABEL_MAP !! l1) -> is_Some (NEWS_LABEL_MAP !! l2) ->
     dict_get NEWS_LABEL_MAP l1 l1 = dict_get NEWS_LABEL_MAP l2 l2 -> l1 = l2).
Proof using Type.
  split.
  - intros l. unfold dict_get. destruct (NEWS_LABEL_MAP !! l) as [v|] eqn:E.
    + apply news_lookup in E as [[-> ->]|[[-> ->]|[[-> ->]|[-> ->]]]];
        split; discriminate.
    + split; reflexivity.
  - intros l1 l2 [v1 E1] [v2 E2]. unfold dict_get. rewrite E1, E2. intros <-.
    apply news_lookup in E1 as [[-> ->]|[[-> ->]|[[-> ->]|[-> ->]]]];
      apply news_lookup in E2 as [[-> H]|[[-> H]|[[-> H]|[-> H]]]];
      reflexivity || discriminate.
Qed.

End Results.

Lemma load_pipelines_loads :
  exists k : nat,
    loads (fst load_pipelines) = firstn k models /\
    (forall p : pipes, snd load_pipelines = Done p -> loads (fst load_pipelines) = models).
Proof.
  unfold load_pipelines.
  destruct (pipeline "text-classification" "distilbert-base-uncased-finetuned-sst-2-english");
    [|exists 1; split; [reflexivity|discriminate]].
  destruct (pipeline "text-classification" "unitary/toxic-bert");
    [|exists 2; split; [reflexivity|discriminate]].
  destruct (pipeline "text-classification" "textattack/distilbert-base-uncased-ag-news");
    exists 3; split; try reflexivity; discriminate.
Qed.

Lemma loads_spinner {A : Type} (msg : message) (m : ui A) :
  loads (fst (spinner msg m)) = loads (fst m).
Proof.
  unfold spinner, loads. simpl. rewrite flat_map_app. simpl. apply app_nil_r.
Qed.

(** A run that finds the models in the cache leaves the cache as it is and
    constructs nothing. *)
Lemma script_cached (p : pipes) (w : widgets) :
  snd (script (Some p) w) = Some p /\ loads (fst (fst (script (Some p) w))) = [].
Proof.
  split; [reflexivity|]. destruct p as [[sp tp] cp]. unfold script. simpl.
  destruct (page sp tp cp w) as [l o] eqn:E. simpl.
  change l with (fst (l, o)). rewrite <- E. apply page_loads.
Qed.

(** A run that finds the cache empty loads the models; the cache is filled
    exactly when the loading went through. *)
Lemma script_first (w : widgets) :
  loads (fst (fst (script None w))) = loads (fst load_pipelines) /\
  (forall p : pipes, snd (script None w) = Some p <-> snd load_pipelines = Done p).
Proof.
  unfold script, cache_resource.
  pose proof (loads_spinner [Lit "🔄 Loading models..."] load_pipelines) as Hs.
  destruct load_pipelines as [l o]. unfold spinner in *. simpl in *.
  destruct o as [[[sp tp] cp]| |e]; simpl.
  - split; [|intros p; split; intros H; inversion H; reflexivity].
    destruct (page sp tp cp w) as [l' o'] eqn:E. simpl.
    assert (Hl : loads l' = []).
    { change l' with (fst (l', o')). rewrite <- E. apply page_loads. }
    unfold loads in *. rewrite flat_map_app, Hs, Hl. apply app_nil_r.
  - split; [exact Hs|intros p; split; discriminate].
  - split; [exact Hs|intros p; split; discriminate].
Qed.

Definition loading : event := SpinnerEnter [Lit "🔄 Loading models..."].

(** A run that finds the three classifiers in the cache: the loading
    spinner comes and goes, then the page runs with those classifiers. *)
Lemma script_warm (sp tp cp : classifier) (w : widgets) :
  script (Some (sp, tp, cp)) w =
    ((loading :: SpinnerExit :: fst (page sp tp cp w), snd (page sp tp cp w)),
     Some (sp, tp, cp)).
Proof.
  unfold script, cache_resource, spinner, ret, bind. simpl.
  destruct (page sp tp cp w). reflexivity.
Qed.

(** A run that finds the cache empty while the three constructions succeed. *)
Lemma script_cold (sp tp cp : classifier) (w : widgets) :
  pipeline "text-classification" "distilbert-base-uncased-finetuned-sst-2-english"
    = Returns sp ->
  pipeline "text-classification" "unitary/toxic-bert" = Returns tp ->
  pipeline "text-classification" "textattack/distilbert-base-uncased-ag-news"
    = Returns cp ->
  script None w =
    ((loading
      :: CallPipeline "text-classification" "distilbert-base-uncased-finetuned-sst-2-english"
      :: CallPipeline "text-classification" "unitary/toxic-bert"
      :: CallPipeline "text-classification" "textattack/distilbert-base-uncased-ag-news"
      :: SpinnerExit :: fst (page sp tp cp w),
      snd (page sp tp cp w)),
     Some (sp, tp, cp)).
Proof.
  intros H1 H2 H3. unfold script, cache_resource, load_pipelines.
  rewrite H1. simpl. rewrite H2. simpl. rewrite H3. simpl.
  unfold bind. simpl. destruct (page sp tp cp w). reflexivity.
Qed.

Lemma process_warm (sp tp cp : classifier) (runs : list widgets) :
  process (Some (sp, tp, cp)) runs =
    flat_map (fun w => loading :: SpinnerExit :: fst (page sp tp cp w)) runs.
Proof.
  induction runs as [|w runs IH]; [reflexivity|].
  cbn [process flat_map]. rewrite script_warm. cbn [fst]. rewrite IH. reflexivity.
Qed.

Lemma loads_warm (sp tp cp : classifier) (runs : list widgets) :
  loads (flat_map (fun w => loading :: SpinnerExit :: fst (page sp tp cp w)) runs) = [].
Proof.
  induction runs as [|w runs IH]; [reflexivity|].
  cbn [flat_map]. unfold loads in *. rewrite flat_map_app, IH, app_nil_r.
  apply (page_loads sp tp cp w).
Qed.

(** C8, as amended. When the three constructions succeed in the first run
    of a process, that run constructs each model once, in the order of
    [load_pipelines], runs the page with the classifiers they returned and
    leaves them in the cache; every later run finds them there, runs the
    page with these same classifiers and constructs nothing.  Over the
    whole process each model is constructed exactly once. *)
Theorem models_are_loaded_once_when_loading_succeeds (sp tp cp : classifier) :
  pipeline "text-classification" "distilbert-base-uncased-finetuned-sst-2-english"
    = Returns sp ->
  pipeline "text-classification" "unitary/toxic-bert" = Returns tp ->
  pipeline "text-classification" "textattack/distilbert-base-uncased-ag-news"
    = Returns cp ->
  (forall w : widgets,
     script None w =
       ((loading
         :: CallPipeline "text-classification" "distilbert-base-uncased-finetuned-sst-2-english"
         :: CallPipeline "text-classification" "unitary/toxic-bert"
         :: CallPipeline "text-classification" "textattack/distilbert-base-uncased-ag-news"
         :: SpinnerExit :: fst (page sp tp cp w),
         snd (page sp tp cp w)),
        Some (sp, tp, cp))) /\
  (forall w : widgets,
     script (Some (sp, tp, cp)) w =
       ((loading :: SpinnerExit :: fst (page sp tp cp w), snd (page sp tp cp w)),
        Some (sp, tp, cp))) /\
  (forall (w : widgets) (runs : list widgets),
     process None (w :: runs) =
       fst (fst (script None w)) ++
       flat_map (fun w' => loading :: SpinnerExit :: fst (page sp tp cp w')) runs) /\
  (forall (w : widgets) (runs : list widgets),
     loads (process None (w :: runs)) = models /\
     NoDup (loads (process None (w :: runs)))).
Proof.
  intros H1 H2 H3.
  assert (Hp : forall w runs,
             process None (w :: runs) =
               fst (fst (script None w)) ++
               flat_map (fun w' => loading :: SpinnerExit :: fst (page sp tp cp w')) runs).
  { intros w runs. cbn [process]. rewrite (script_cold sp tp cp w H1 H2 H3).
    cbn [fst]. rewrite process_warm. reflexivity. }
  assert (Hl : forall w runs, loads (process None (w :: runs)) = models).
  { intros w runs. rewrite Hp, (script_cold sp tp cp w H1 H2 H3). cbn [fst].
    unfold loads. rewrite flat_map_app.
    fold (loads (flat_map (fun w' => loading :: SpinnerExit :: fst (page sp tp cp w')) runs)).
    rewrite loads_warm, app_nil_r. simpl.
    fold (loads (fst (page sp tp cp w))). rewrite (page_loads sp tp cp w). reflexivity. }
  split; [intros w; apply (script_cold sp tp cp w H1 H2 H3)|].
  split; [intros w; apply script_warm|].
  split; [exact Hp|].
  intros w runs. split; [apply Hl|]. rewrite Hl.
  apply (bool_decide_unpack _). vm_compute. exact I.
Qed.

(** X13. When a model fails to load, the run ends with that model's
    exception and the page is not drawn: the steps of the run are the
    constructions up to and including the failing one, the later models
    are not attempted, and the cache stays empty. *)
Theorem failed_load_shows_no_page (w : widgets) (err : exn) :
  snd load_pipelines = Raised err ->
  script None w =
    ((SpinnerEnter [Lit "🔄 Loading models..."] :: fst load_pipelines ++ [SpinnerExit],
      Raised err), None) /\
  exists (k : nat) (task model : string),
    nth_error models k = Some (task, model) /\
    pipeline task model = Raises err /\
    fst load_pipelines =
      map (fun m => CallPipeline (fst m) (snd m)) (firstn (S k) models).
Proof.
  intros H. unfold script, cache_resource. unfold load_pipelines in *.
  destruct (pipeline "text-classification" "distilbert-base-uncased-finetuned-sst-2-english")
    eqn:E1; simpl in *.
  - destruct (pipeline "text-classification" "unitary/toxic-bert") eqn:E2; simpl in *.
    + destruct (pipeline "text-classification" "textattack/distilbert-base-uncased-ag-news")
        eqn:E3; simpl in *; [discriminate|].
      injection H as ->. split; [reflexivity|].
      exists 2, "text-classification", "textattack/distilbert-base-uncased-ag-news".
      repeat split; [exact E3].
    + injection H as ->. split; [reflexivity|].
      exists 1, "text-classification", "unitary/toxic-bert".
      repeat split; [exact E2].
  - injection H as ->. split; [reflexivity|].
    exists 0, "text-classification", "distilbert-base-uncased-finetuned-sst-2-english".
    repeat split; [exact E1].
Qed.

End App.

(** ** The confidences shown

    The values shown are doubles.  This section follows a product and its
    rounding through the IEEE operations: first on the integer readings of
    the numbers, then on the doubles themselves. *)

Section Confidences.

Import Binary64.
Local Open Scope Z_scope.

Lemma digits2_pos_bounds (p : positive) :
  2 ^ (Z.pos (digits2_pos p) - 1) <= Z.pos p < 2 ^ Z.pos (digits2_pos p).
Proof.
  induction p as [p IH | p IH |]; cbn [digits2_pos].
  - rewrite Pos2Z.inj_succ, Z.pow_succ_r by lia.
    replace (Z.succ (Z.pos (digits2_pos p)) - 1) with (Z.succ (Z.pos (digits2_pos p) - 1)) by lia.
    rewrite Z.pow_succ_r by lia. lia.
  - rewrite Pos2Z.inj_succ, Z.pow_succ_r by lia.
    replace (Z.succ (Z.pos (digits2_pos p)) - 1) with (Z.succ (Z.pos (digits2_pos p) - 1)) by lia.
    rewrite Z.pow_succ_r by lia. lia.
  - cbn. lia.
Qed.

Lemma iter_pos_nat {A : Type} (f : A -> A) (p : positive) (x : A) :
  SpecFloat.iter_pos f p x = Nat.iter (Pos.to_nat p) f x.
Proof.
  revert x. induction p as [p IH | p IH |]; intros x; cbn [SpecFloat.iter_pos].
  - rewrite !IH, Pos2Nat.inj_xI.
    replace (2 * Pos.to_nat p)%nat with (Pos.to_nat p + Pos.to_nat p)%nat by lia.
    rewrite Nat.iter_succ_r, Nat.iter_add. reflexivity.
  - rewrite !IH, Pos2Nat.inj_xO.
    replace (2 * Pos.to_nat p)%nat with (Pos.to_nat p + Pos.to_nat p)%nat by lia.
    rewrite Nat.iter_add. reflexivity.
  - reflexivity.
Qed.

Lemma shr_1_spec (mrs : shr_record) :
  0 <= shr_m mrs ->
  shr_m (shr_1 mrs) = shr_m mrs / 2 /\
  shr_r (shr_1 mrs) = Z.odd (shr_m mrs) /\
  shr_s (shr_1 mrs) = shr_r mrs || shr_s mrs.
Proof.
  destruct mrs as [m r s]. cbn [shr_m shr_r shr_s]. intros Hm.
  destruct m as [| [p | p |] | p]; cbn [shr_1 shr_m shr_r shr_s]; try lia.
  - repeat split.
  - repeat split. rewrite Pos2Z.inj_xI. apply (Z.div_unique _ 2 _ 1); lia.
  - repeat split. rewrite Pos2Z.inj_xO. apply (Z.div_unique _ 2 _ 0); lia.
  - repeat split.
Qed.

Lemma shr_nat (k : nat) (m : Z) :
  0 <= m ->
  let mrs := Nat.iter k shr_1 (Build_shr_record m false false) in
  shr_m mrs = m / 2 ^ Z.of_nat k /\
  (m mod 2 ^ Z.of_nat k = 0 -> shr_r mrs = false /\ shr_s mrs = false).
Proof.
  intros Hm. induction k as [| k IH]; cbn zeta in *.
  - cbn. rewrite Z.div_1_r. auto.
  - rewrite Nat.iter_succ. destruct IH as [IHm IHe].
    set (mrs := Nat.iter k shr_1 _) in *.
    assert (Hk : 0 < 2 ^ Z.of_nat k) by (apply Z.pow_pos_nonneg; lia).
    assert (Hq : 0 <= shr_m mrs) by (rewrite IHm; apply Z.div_pos; lia).
    destruct (shr_1_spec mrs Hq) as (H1 & H2 & H3).
    rewrite Nat2Z.inj_succ, Z.pow_succ_r by lia.
    split.
    + rewrite H1, IHm, Z.div_div by lia. f_equal. lia.
    + intros Hmod.
      assert (Hdiv : m = 2 * 2 ^ Z.of_nat k * (m / (2 * 2 ^ Z.of_nat k))).
      { apply Z.div_exact; [lia | exact Hmod]. }
      set (t := m / (2 * 2 ^ Z.of_nat k)) in *.
      assert (Hmk : m mod 2 ^ Z.of_nat k = 0).
      { rewrite Hdiv. replace (2 * 2 ^ Z.of_nat k * t) with (2 * t * 2 ^ Z.of_nat k) by lia.
        apply Z.mod_mul. lia. }
      destruct (IHe Hmk) as [Hr Hs].
      rewrite H2, H3, Hr, Hs. split; [| reflexivity].
      rewrite IHm, Hdiv.
      replace (2 * 2 ^ Z.of_nat k * t) with (2 * t * 2 ^ Z.of_nat k) by lia.
      rewrite Z.div_mul by lia. rewrite Z.odd_mul. reflexivity.
Qed.

(** What one normalising shift does to a non-negative integer mantissa that
    comes with no rounding information. *)
Lemma shr_fexp_spec (m e : Z) :
  0 <= m ->
  exists n mrs,
    shr_fexp prec emax m e loc_Exact = (mrs, e + n) /\
    n = Z.max 0 (fexp prec emax (Zdigits2 m + e) - e) /\
    shr_m mrs = m / 2 ^ n /\
    (m mod 2 ^ n = 0 -> loc_of_shr_record mrs = loc_Exact).
Proof.
  intros Hm. unfold shr_fexp. cbn [shr_record_of_loc].
  set (n := fexp prec emax (Zdigits2 m + e) - e).
  destruct n as [| p | p] eqn:En; cbn [shr].
  - exists 0, (Build_shr_record m false false). rewrite Z.add_0_r.
    cbn [shr_m]. rewrite Z.div_1_r. repeat split; auto.
  - exists (Z.pos p), (SpecFloat.iter_pos shr_1 p (Build_shr_record m false false)).
    rewrite iter_pos_nat.
    destruct (shr_nat (Pos.to_nat p) m Hm) as [H1 H2].
    rewrite positive_nat_Z in H1, H2.
    split; [reflexivity |]. split; [lia |]. split; [exact H1 |].
    intros Hmod. destruct (H2 Hmod) as [Hr Hs].
    destruct (Nat.iter _ _ _) as [m' r s]. cbn in Hr, Hs. subst. reflexivity.
  - exists 0, (Build_shr_record m false false). rewrite Z.add_0_r.
    cbn [shr_m]. rewrite Z.div_1_r.
    split; [reflexivity |]. split; [lia |]. split; [reflexivity |]. reflexivity.
Qed.

Lemma round_nearest_even_bounds (q : Z) (l : location) :
  q <= round_nearest_even q l <= q + 1.
Proof.
  destruct l as [| []]; cbn [round_nearest_even]; try lia.
  destruct (Z.even q); lia.
Qed.

(** Rounding an exact product [P * 2^E] never exceeds a bound that is itself
    a normal binary64 number [c * 2^eC]. *)
Lemma binary_round_aux_le (P : positive) (E c eC : Z) :
  2 ^ 52 <= c < 2 ^ 53 -> -1074 <= eC <= 900 -> E <= eC ->
  Z.pos P <= c * 2 ^ (eC - E) ->
  match binary_round_aux prec emax false (Z.pos P) E loc_Exact with
  | S754_zero s => s = false
  | S754_finite s m2 e2 =>
      s = false /\ E <= e2 /\ Z.pos m2 * 2 ^ (e2 - E) <= c * 2 ^ (eC - E)
  | _ => False
  end.
Proof.
  intros Hc HeC HE HP.
  unfold binary_round_aux.
  destruct (shr_fexp_spec (Z.pos P) E ltac:(lia)) as (n & mrs & -> & Hn & Hq & Hex).
  pose proof (digits2_pos_bounds P) as Hd.
  cbn [Zdigits2] in Hn. set (d := Z.pos (digits2_pos P)) in *.
  assert (Hpow : 0 < 2 ^ (eC - E)) by (apply Z.pow_pos_nonneg; lia).
  assert (Hf1 : d + E - 53 <= eC).
  { assert (2 ^ (d - 1) < 2 ^ (53 + (eC - E))).
    { rewrite Z.pow_add_r by lia. nia. }
    apply Z.pow_lt_mono_r_iff in H; lia. }
  assert (Hn0 : 0 <= n <= eC - E).
  { subst n. unfold fexp, emin, prec, emax. lia. }
  set (m1 := round_nearest_even (shr_m mrs) (loc_of_shr_record mrs)).
  assert (H2n : 0 < 2 ^ n) by (apply Z.pow_pos_nonneg; lia).
  assert (Hm1 : 0 <= m1 /\ m1 * 2 ^ n <= c * 2 ^ (eC - E)).
  { pose proof (round_nearest_even_bounds (shr_m mrs) (loc_of_shr_record mrs)) as Hb.
    fold m1 in Hb. rewrite Hq in Hb.
    assert (0 <= Z.pos P / 2 ^ n) by (apply Z.div_pos; lia).
    split; [lia |].
    replace (eC - E) with ((eC - E - n) + n) by lia.
    rewrite Z.pow_add_r by lia.
    set (c' := c * 2 ^ (eC - E - n)).
    assert (HP' : Z.pos P <= c' * 2 ^ n).
    { unfold c'. rewrite <- Z.mul_assoc, <- Z.pow_add_r by lia.
      replace (eC - E - n + n) with (eC - E) by lia. exact HP. }
    rewrite Z.mul_assoc. fold c'.
    pose proof (Z.div_mod (Z.pos P) (2 ^ n) ltac:(lia)) as Hdm.
    pose proof (Z.mod_pos_bound (Z.pos P) (2 ^ n) H2n) as Hmb.
    destruct (Z.eq_dec (Z.pos P mod 2 ^ n) 0) as [Hz | Hnz].
    - assert (m1 = Z.pos P / 2 ^ n).
      { unfold m1. rewrite (Hex Hz). cbn. exact Hq. }
      nia.
    - assert (Z.pos P / 2 ^ n < c') by nia.
      nia. }
  destruct Hm1 as [Hm1 Hm1le].
  destruct (shr_fexp_spec m1 (E + n) Hm1) as (n2 & mrs2 & -> & Hn2 & Hq2 & _).
  assert (Hn2' : 0 <= n2) by lia.
  assert (H2n2 : 0 < 2 ^ n2) by (apply Z.pow_pos_nonneg; lia).
  assert (Hm2 : 0 <= shr_m mrs2 /\ shr_m mrs2 * 2 ^ n2 <= m1).
  { rewrite Hq2. split; [apply Z.div_pos; lia |].
    rewrite Z.mul_comm. apply Z.mul_div_le. lia. }
  destruct (shr_m mrs2) as [| m2 | m2] eqn:Em2; [reflexivity | | lia].
  assert (Hval : Z.pos m2 * 2 ^ (E + n + n2 - E) <= c * 2 ^ (eC - E)).
  { replace (E + n + n2 - E) with (n2 + n) by lia.
    rewrite Z.pow_add_r by lia. nia. }
  assert (He2 : E + n + n2 <= 971).
  { assert (2 ^ (E + n + n2 - E) < 2 ^ (53 + (eC - E))).
    { rewrite (Z.pow_add_r 2 53) by lia.
      assert (0 < 2 ^ (E + n + n2 - E)) by (apply Z.pow_pos_nonneg; lia).
      nia. }
    apply Z.pow_lt_mono_r_iff in H; lia. }
  replace (E + n + n2 <=? emax - prec) with true
    by (symmetry; apply Z.leb_le; unfold emax, prec; lia).
  repeat split; [lia | exact Hval].
Qed.

(** A valid binary64 mantissa has at most 53 bits, and exactly 53 above the
    smallest exponent. *)
Lemma bounded_mantissa (m : positive) (e : Z) :
  bounded prec emax m e = true ->
  Z.pos m < 2 ^ 53 /\ -1074 <= e /\ (-1074 < e -> 2 ^ 52 <= Z.pos m).
Proof.
  unfold bounded, canonical_mantissa, fexp, emin, prec, emax.
  intros H. apply andb_prop in H as [H _]. apply Z.eqb_eq in H.
  pose proof (digits2_pos_bounds m) as Hd.
  set (d := Z.pos (digits2_pos m)) in *.
  assert (d <= 53) by lia.
  split; [| split]; [ | lia | ].
  - apply Z.lt_le_trans with (2 ^ d); [lia | apply Z.pow_le_mono_r; lia].
  - intros He. assert (d = 53) by lia. replace 52 with (d - 1) by lia. lia.
Qed.

Lemma compare_cont_le (m1 m2 : positive) :
  match Pos.compare_cont Eq m1 m2 with Gt => False | _ => True end <->
  Z.pos m1 <= Z.pos m2.
Proof.
  change (Pos.compare_cont Eq m1 m2) with (Pos.compare m1 m2).
  destruct (Pos.compare_spec m1 m2); split; intros; try lia; auto.
Qed.

(** Reading an upper bound off a comparison. *)
Lemma SFleb_value (m : positive) (e : Z) (c : positive) (eC : Z) :
  bounded prec emax m e = true -> 2 ^ 52 <= Z.pos c ->
  SFleb (S754_finite false m e) (S754_finite false c eC) = true ->
  e <= eC /\ Z.pos m <= Z.pos c * 2 ^ (eC - e).
Proof.
  intros Hb Hc. destruct (bounded_mantissa m e Hb) as (Hm & _ & _).
  unfold SFleb, SFcompare.
  destruct (Z.compare_spec e eC) as [-> | Hlt | Hgt].
  - pose proof (compare_cont_le m c) as Hcc.
    destruct (Pos.compare_cont Eq m c); intros H; try discriminate;
      (split; [lia |]); rewrite Z.sub_diag, Z.mul_1_r; apply Hcc; exact I.
  - intros _. split; [lia |].
    assert (2 ^ 1 <= 2 ^ (eC - e)) by (apply Z.pow_le_mono_r; lia).
    nia.
  - discriminate.
Qed.

(** Establishing a comparison from an upper bound. *)
Lemma value_SFleb (m : positive) (e E : Z) (c : positive) (eC : Z) :
  bounded prec emax m e = true ->
  Z.pos c < 2 ^ 53 -> -1074 <= eC -> E <= e -> E <= eC ->
  Z.pos m * 2 ^ (e - E) <= Z.pos c * 2 ^ (eC - E) ->
  SFleb (S754_finite false m e) (S754_finite false c eC) = true.
Proof.
  intros Hb Hc HeC HE HE' Hv. destruct (bounded_mantissa m e Hb) as (_ & _ & Hm).
  unfold SFleb, SFcompare.
  destruct (Z.compare_spec e eC) as [-> | Hlt | Hgt].
  - assert (0 < 2 ^ (eC - E)) by (apply Z.pow_pos_nonneg; lia).
    pose proof (compare_cont_le m c) as Hcc.
    destruct (Pos.compare_cont Eq m c); try reflexivity.
    exfalso. apply Hcc. nia.
  - reflexivity.
  - exfalso. specialize (Hm ltac:(lia)).
    replace (e - E) with ((e - eC) + (eC - E)) in Hv by lia.
    rewrite Z.pow_add_r in Hv by lia.
    assert (0 < 2 ^ (eC - E)) by (apply Z.pow_pos_nonneg; lia).
    assert (HA : 2 ^ 1 <= 2 ^ (e - eC)) by (apply Z.pow_le_mono_r; lia).
    change (2 ^ 1) with 2 in HA.
    set (A := 2 ^ (e - eC)) in *. set (B := 2 ^ (eC - E)) in *.
    assert (Z.pos m * A <= Z.pos c).
    { apply Z.mul_le_mono_pos_r with B; [lia |]. lia. }
    assert (2 ^ 52 * 2 <= Z.pos m * A) by (apply Z.mul_le_mono_nonneg; lia).
    lia.
Qed.



Lemma nearest_even_le (n d K : Z) :
  0 <= n -> 0 < d -> n <= K * d -> 0 <= nearest_even n d <= K.
Proof.
  intros Hn Hd HK. unfold nearest_even.
  pose proof (Z.div_mod n d ltac:(lia)) as Hdm.
  pose proof (Z.mod_pos_bound n d Hd) as Hmb.
  assert (0 <= n / d) by (apply Z.div_pos; lia).
  assert (n / d <= K) by nia.
  destruct (Z.compare_spec (2 * (n mod d)) d) as [He | Hl | Hg].
  - destruct (Z.even (n / d)); [lia |]. nia.
  - lia.
  - nia.
Qed.

Lemma all_from_spec (f : Z -> bool) (n : nat) (k j : Z) :
  all_from f k n = true -> k <= j < k + Z.of_nat n -> f j = true.
Proof.
  revert k. induction n as [| n IH]; intros k H Hj; [lia |].
  cbn [all_from] in H. apply andb_prop in H as [Hk Hrest].
  destruct (Z.eq_dec j k) as [-> | Hne]; [exact Hk |].
  apply (IH (k + 1)); [exact Hrest | lia].
Qed.

Lemma Prim2SF_zero : Prim2SF 0 = S754_zero false.
Proof. reflexivity. Qed.

(** A double between 0 and a normal bound [B] is a zero or a positive
    number whose integer reading is bounded by that of [B]. *)
Lemma float_range_inv (x B : float) (mB : positive) (eB : Z) :
  Prim2SF B = S754_finite false mB eB -> 2 ^ 52 <= Z.pos mB ->
  PrimFloat.leb 0 x = true -> PrimFloat.leb x B = true ->
  (exists s, Prim2SF x = S754_zero s) \/
  (exists m e, Prim2SF x = S754_finite false m e /\
     bounded prec emax m e = true /\
     e <= eB /\ Z.pos m <= Z.pos mB * 2 ^ (eB - e)).
Proof.
  intros HB Hn H0 H1. rewrite leb_spec in H0, H1.
  rewrite HB in H1. rewrite Prim2SF_zero in H0.
  pose proof (Prim2SF_valid x) as Hv.
  destruct (Prim2SF x) as [s | [|] | | [|] m e]; try discriminate.
  - left. exists s. reflexivity.
  - right. exists m, e. cbn [valid_binary] in Hv.
    destruct (SFleb_value m e mB eB Hv Hn H1) as [He Hm]. auto.
Qed.

Lemma float_range_intro (x C : float) (c : positive) (eC E : Z) :
  Prim2SF C = S754_finite false c eC -> Z.pos c < 2 ^ 53 -> -1074 <= eC ->
  match Prim2SF x with
  | S754_zero _ => True
  | S754_finite s m e =>
      s = false /\ E <= e /\ E <= eC /\ Z.pos m * 2 ^ (e - E) <= Z.pos c * 2 ^ (eC - E)
  | _ => False
  end ->
  PrimFloat.leb 0 x = true /\ PrimFloat.leb x C = true.
Proof.
  intros HC Hc HeC H. rewrite !leb_spec, HC, Prim2SF_zero.
  pose proof (Prim2SF_valid x) as Hv.
  destruct (Prim2SF x) as [s | s | | s m e]; try contradiction.
  - split; reflexivity.
  - destruct H as (-> & He & HE & Hval). split; [reflexivity |].
    apply (value_SFleb m e E c eC); auto.
Qed.

(** Multiplying a double of [0, B] by a positive constant [K] stays within
    [0, B * K] when that product is itself a normal double [C]. *)
Lemma mul_range (x B K C : float) (mB mK c : positive) (eB eK eC : Z) :
  Prim2SF B = S754_finite false mB eB ->
  Prim2SF K = S754_finite false mK eK ->
  Prim2SF C = S754_finite false c eC ->
  2 ^ 52 <= Z.pos mB -> 2 ^ 52 <= Z.pos c < 2 ^ 53 -> -1074 <= eC <= 900 ->
  eB + eK <= eC -> Z.pos mB * Z.pos mK = Z.pos c * 2 ^ (eC - eB - eK) ->
  PrimFloat.leb 0 x = true -> PrimFloat.leb x B = true ->
  PrimFloat.leb 0 (PrimFloat.mul x K) = true /\
  PrimFloat.leb (PrimFloat.mul x K) C = true.
Proof.
  intros HB HK HC HmB Hc HeC Hsum Hprod H0 H1.
  destruct (float_range_inv x B mB eB HB HmB H0 H1)
    as [[s Hx] | (m & e & Hx & Hbd & He & Hm)].
  - apply (float_range_intro _ C c eC 0 HC); [lia | lia |].
    rewrite mul_spec, Hx, HK. exact I.
  - apply (float_range_intro _ C c eC (e + eK) HC); [lia | lia |].
    rewrite mul_spec, Hx, HK. unfold SF64mul. cbn [SFmul xorb].
    assert (HP : Z.pos (m * mK) <= Z.pos c * 2 ^ (eC - (e + eK))).
    { rewrite Pos2Z.inj_mul.
      replace (eC - (e + eK)) with ((eC - eB - eK) + (eB - e)) by lia.
      rewrite Z.pow_add_r by lia.
      rewrite Z.mul_assoc, <- Hprod.
      assert (0 < 2 ^ (eB - e)) by (apply Z.pow_pos_nonneg; lia).
      nia. }
    pose proof (binary_round_aux_le (m * mK) (e + eK) (Z.pos c) eC Hc HeC ltac:(lia) HP) as Hr.
    destruct (binary_round_aux prec emax false (Z.pos (m * mK)) (e + eK) loc_Exact)
      as [s | s | | s m2 e2]; try contradiction; [exact I |].
    destruct Hr as (-> & He2 & Hval). repeat split; [exact He2 | lia | exact Hval].
Qed.

Lemma percent_range (p : float) :
  PrimFloat.leb 0 p = true -> PrimFloat.leb p 1 = true ->
  PrimFloat.leb 0 (PrimFloat.mul p 100) = true /\
  PrimFloat.leb (PrimFloat.mul p 100) 100 = true.
Proof.
  apply (mul_range p 1 100 100 4503599627370496 7036874417766400 7036874417766400
           (-52) (-46) (-46));
    try reflexivity; try (vm_compute; intuition discriminate).
Qed.

Lemma cents_range (y : float) :
  PrimFloat.leb 0 y = true -> PrimFloat.leb y 100 = true ->
  PrimFloat.leb 0 (PrimFloat.mul y 100) = true /\
  PrimFloat.leb (PrimFloat.mul y 100) 10000 = true.
Proof.
  apply (mul_range y 100 100 10000 7036874417766400 7036874417766400 5497558138880000
           (-46) (-46) (-39));
    try reflexivity; try (vm_compute; intuition discriminate).
Qed.

Lemma signed_zero (s : bool) : SF2Prim (S754_zero s) = signed s (of_int 0).
Proof. destruct s; reflexivity. Qed.

Lemma rint_range (z : float) :
  PrimFloat.leb 0 z = true -> PrimFloat.leb z 10000 = true ->
  exists (s : bool) (k : Z),
    (s = true -> k = 0) /\ 0 <= k <= 10000 /\ rint z = signed s (of_int k).
Proof.
  intros H0 H1.
  destruct (float_range_inv z 10000 5497558138880000 (-39) eq_refl
              ltac:(vm_compute; discriminate) H0 H1)
    as [[s Hz] | (m & e & Hz & Hbd & He & Hm)].
  - exists s, 0. split; [auto |]. split; [lia |].
    unfold rint. rewrite Hz. rewrite <- (SF2Prim_Prim2SF z), Hz. apply signed_zero.
  - exists false, (nearest_even (Z.pos m) (2 ^ (- e))).
    split; [discriminate |].
    assert (Hd : 0 < 2 ^ (- e)) by (apply Z.pow_pos_nonneg; lia).
    split.
    + apply nearest_even_le; [lia | exact Hd |].
      replace (- e) with (39 + (-39 - e)) by lia.
      rewrite Z.pow_add_r by lia.
      change (Z.pos 5497558138880000) with (10000 * 2 ^ 39) in Hm.
      rewrite <- Z.mul_assoc in Hm. exact Hm.
    + unfold rint. rewrite Hz.
      replace (e <? 0) with true by (symmetry; apply Z.ltb_lt; lia).
      reflexivity.
Qed.

Lemma signed_hundredths (s : bool) (k : Z) :
  (s = true -> k = 0) ->
  PrimFloat.div (signed s (of_int k)) 100 = signed s (hundredths k).
Proof.
  destruct s; [| reflexivity]. intros H. rewrite (H eq_refl). reflexivity.
Qed.

(** numpy's rounding of a percentage to two places gives [k / 100] for an
    integer [k] of [0, 10000]. *)
Lemma numpy_round_hundredths (y : float) :
  PrimFloat.leb 0 y = true -> PrimFloat.leb y 100 = true ->
  two_decimals (numpy_round y 2).
Proof.
  intros H0 H1. destruct (cents_range y H0 H1) as [Hz0 Hz1].
  destruct (rint_range _ Hz0 Hz1) as (s & k & Hs & Hk & E).
  exists s, k. split; [exact Hs |]. split; [exact Hk |].
  unfold numpy_round. cbn [Z.leb Z.compare].
  change (float_of_Z (10 ^ 2)) with 100%float.
  cbv zeta. rewrite E. apply signed_hundredths, Hs.
Qed.

(** So does Python's. *)
Lemma builtin_round_hundredths (y : float) :
  PrimFloat.leb 0 y = true -> PrimFloat.leb y 100 = true ->
  two_decimals (builtin_round y 2).
Proof.
  intros H0 H1.
  destruct (float_range_inv y 100 7036874417766400 (-46) eq_refl
              ltac:(vm_compute; discriminate) H0 H1)
    as [[s Hy] | (m & e & Hy & Hbd & He & Hm)].
  - exists s, 0. split; [auto |]. split; [lia |].
    unfold builtin_round. rewrite Hy. rewrite <- (SF2Prim_Prim2SF y), Hy.
    destruct s; reflexivity.
  - unfold builtin_round. rewrite Hy. cbv zeta.
    replace (Z.max e 0) with 0 by lia.
    replace (Z.max (- e) 0) with (- e) by lia.
    change (Z.max 2 0) with 2. change (Z.max (- (2)) 0) with 0.
    change (0 <=? 2) with true. cbv iota.
    set (k := nearest_even _ _).
    assert (Hd : 0 < 2 ^ (- e)) by (apply Z.pow_pos_nonneg; lia).
    assert (Hk : 0 <= k <= 10000).
    { apply nearest_even_le; [lia | lia |].
      change (2 ^ 0) with 1. change (10 ^ 0) with 1. change (10 ^ 2) with 100.
      rewrite !Z.mul_1_r.
      replace (- e) with (46 + (-46 - e)) by lia.
      rewrite Z.pow_add_r by lia.
      change (Z.pos 7036874417766400) with (100 * 2 ^ 46) in Hm.
      rewrite <- Z.mul_assoc in Hm.
      set (A := 2 ^ 46 * 2 ^ (-46 - e)) in *. lia. }
    exists false, k. split; [discriminate |]. split; [exact Hk |].
    unfold decimal.
    replace (k <? 10 ^ 15) with true by (symmetry; apply Z.ltb_lt; lia).
    reflexivity.
Qed.

Lemma hundredths_settled :
  all_from (fun k => settled (hundredths k)) 0 (Z.to_nat 10001) = true.
Proof. vm_compute. reflexivity. Qed.

(** Every two-decimal percentage lies in [0, 100] and is a fixed point of
    both roundings. *)
Lemma two_decimals_settled (c : float) :
  two_decimals c ->
  PrimFloat.leb 0 c = true /\ PrimFloat.leb c 100 = true /\
  numpy_round c 2 = c /\ builtin_round c 2 = c.
Proof.
  intros (s & k & Hs & Hk & ->).
  assert (H : settled (signed s (hundredths k)) = true).
  { destruct s.
    - rewrite (Hs eq_refl). vm_compute. reflexivity.
    - apply (all_from_spec (fun k => settled (hundredths k)) (Z.to_nat 10001) 0 k
               hundredths_settled).
      lia. }
  unfold settled in H.
  apply andb_prop in H as [H H4]. apply andb_prop in H as [H H3].
  apply andb_prop in H as [H1 H2].
  apply Leibniz.eqb_spec in H3, H4. auto.
Qed.


(** The confidence shown for a probability of [0, 1] is a percentage with
    two decimals. *)
Lemma confidence_two_decimals (t : Task) (p : float) :
  PrimFloat.leb 0 p = true -> PrimFloat.leb p 1 = true ->
  two_decimals (confidence numpy_round builtin_round t p).
Proof.
  intros H0 H1. destruct (percent_range p H0 H1) as [Hy0 Hy1].
  destruct t; cbn [confidence].
  - apply numpy_round_hundredths; assumption.
  - apply numpy_round_hundredths; assumption.
  - apply builtin_round_hundredths; assumption.
Qed.

End Confidences.

(** C4. Take a run of the page, with numpy's and Python's roundings, that
    calls the classifier of the selected task, and let the classifier answer
    with probabilities between 0 and 1.  Then in every table and every
    chart of the run the confidences are, in the classifier's order, the
    probabilities multiplied by 100 and rounded to two places by the
    task's routine; each confidence shown lies between 0 and 100 and is the
    double nearest to [k / 100] for an integer [k] from 0 to 10000, which
    rounding again, by either routine, leaves unchanged.  When the answer is
    not empty the run does show a table and a chart. *)
Theorem confidences_are_percentages_with_two_decimals
    (detect : pystr -> result string)
    (translate : string -> string -> pystr -> result pystr)
    (sentiment_pipe toxic_pipe category_pipe : classifier)
    (w : widgets) (text_to_use : pystr)
    (raw : list record) (rest : list (list record)) :
  In (CallClassifier (pipe_id (selected w)) text_to_use)
     (fst (page detect translate Binary64.numpy_round Binary64.builtin_round
             sentiment_pipe toxic_pipe category_pipe w)) ->
  pipe_of sentiment_pipe toxic_pipe category_pipe (selected w) text_to_use
    = Returns (raw :: rest) ->
  (forall r, In r raw ->
     PrimFloat.leb 0 (score r) = true /\ PrimFloat.leb (score r) 1 = true) ->
  (forall rows : list (cell * cell),
     (exists df,
        In df (tables (fst (page detect translate Binary64.numpy_round
                              Binary64.builtin_round
                              sentiment_pipe toxic_pipe category_pipe w))) /\
        rows = table_rows df) \/
     (exists fig,
        In fig (charts (fst (page detect translate Binary64.numpy_round
                               Binary64.builtin_round
                               sentiment_pipe toxic_pipe category_pipe w))) /\
        rows = sectors fig) ->
     map snd rows
       = map (fun r =>
                CFloat (match selected w with
                        | NewsCategoryClassification =>
                            Binary64.builtin_round (PrimFloat.mul (score r) 100) 2
                        | _ => Binary64.numpy_round (PrimFloat.mul (score r) 100) 2
                        end)) raw /\
     forall (l : cell) (c : float),
       In (l, CFloat c) rows ->
       PrimFloat.leb 0 c = true /\ PrimFloat.leb c 100 = true /\
       Binary64.two_decimals c /\
       Binary64.numpy_round c 2 = c /\ Binary64.builtin_round c 2 = c) /\
  (raw <> [] ->
     tables (fst (page detect translate Binary64.numpy_round Binary64.builtin_round
                    sentiment_pipe toxic_pipe category_pipe w)) <> [] /\
     charts (fst (page detect translate Binary64.numpy_round Binary64.builtin_round
                    sentiment_pipe toxic_pipe category_pipe w)) <> []).
Proof.
  intros Hin Hraw Hp.
  destruct (page_results detect translate Binary64.numpy_round Binary64.builtin_round
              sentiment_pipe toxic_pipe category_pipe w text_to_use raw rest Hin Hraw)
    as [Hrows Hne].
  split; [| exact Hne].
  intros rows Hshown. rewrite (Hrows rows Hshown). split.
  - rewrite map_map. apply map_ext. intros r. destruct (selected w); reflexivity.
  - intros l c Hc. apply in_map_iff in Hc as (r & Heq & Hr).
    injection Heq as _ <-. destruct (Hp r Hr) as [H0 H1].
    pose proof (confidence_two_decimals (selected w) (score r) H0 H1) as H2.
    destruct (two_decimals_settled _ H2) as (? & ? & ? & ?). auto.
Qed.

(** ** The theorems at work on the stand-ins *)

Local Abbreviation page_s :=
  (page Scenario.detect Scenario.translate Scenario.round Scenario.round
     Scenario.sentiment_pipe Scenario.toxic_pipe Scenario.category_pipe).

Local Abbreviation process_s pipeline :=
  (process Scenario.detect Scenario.translate pipeline Scenario.round Scenario.round).

(** Spaces, a tab, a no-break space, an em space and a line feed. *)
Lemma blank_text_witness :
  forallb isspace [32; 9; 160; 8195; 10]%N = true /\
  steps (fst (page_s {| selected := SentimentAnalysis;
                        typed := [32; 9; 160; 8195; 10]%N;
                        pressed := true |})) = [].
Proof.
  split; [reflexivity|].
  apply (blank_text_runs_no_step Scenario.detect Scenario.translate
           Scenario.round Scenario.round
           Scenario.sentiment_pipe Scenario.toxic_pipe Scenario.category_pipe
           {| selected := SentimentAnalysis; typed := [32; 9; 160; 8195; 10]%N;
              pressed := true |}).
  reflexivity.
Defined.

(** The detector gives up on digits; the translator is unreachable for
    "Hola". *)
Lemma errors_halt_witness :
  (Scenario.detect (Scenario.of_ascii "12345")
     = Raises (Exception "LangDetectException" "No features in text.") /\
   snd (page_s (Scenario.request ToxicCommentDetection "12345")) = Stopped /\
   steps (fst (page_s (Scenario.request ToxicCommentDetection "12345")))
     = [CallDetect (Scenario.of_ascii "12345")]) /\
  (Scenario.detect (Scenario.of_ascii "Hola") = Returns "es" /\
   Scenario.translate "auto" "en" (Scenario.of_ascii "Hola")
     = Raises (Exception "RequestError"
                 "Request exception can happen due to an api connection error.") /\
   snd (page_s (Scenario.request SentimentAnalysis "Hola")) = Stopped /\
   steps (fst (page_s (Scenario.request SentimentAnalysis "Hola")))
     = [CallDetect (Scenario.of_ascii "Hola");
        CallTranslate "auto" "en" (Scenario.of_ascii "Hola")]).
Proof.
  split.
  - split; [reflexivity|].
    destruct (errors_halt_the_request Scenario.detect Scenario.translate
                Scenario.round Scenario.round
                Scenario.sentiment_pipe Scenario.toxic_pipe Scenario.category_pipe
                (Scenario.request ToxicCommentDetection "12345")
                eq_refl eq_refl) as [H _].
    destruct (H _ eq_refl) as [E S]. split; [rewrite E; reflexivity|exact S].
  - split; [reflexivity|]. split; [reflexivity|].
    destruct (errors_halt_the_request Scenario.detect Scenario.translate
                Scenario.round Scenario.round
                Scenario.sentiment_pipe Scenario.toxic_pipe Scenario.category_pipe
                (Scenario.request SentimentAnalysis "Hola")
                eq_refl eq_refl) as [_ H].
    assert (Hl : "es" <> "en") by discriminate.
    destruct (H "es" _ eq_refl Hl eq_refl) as [E S].
    split; [rewrite E; reflexivity|exact S].
Defined.

Lemma english_text_witness :
  Scenario.detect (Scenario.of_ascii "I love this!") = Returns "en" /\
  translations (fst (page_s (Scenario.request SentimentAnalysis "I love this!"))) = [] /\
  classifications (fst (page_s (Scenario.request SentimentAnalysis "I love this!")))
    = [(sentiment_pipe_, Scenario.of_ascii "I love this!")].
Proof.
  split; [reflexivity|].
  destruct (english_text_is_classified_unchanged Scenario.detect Scenario.translate
              Scenario.round Scenario.round
              Scenario.sentiment_pipe Scenario.toxic_pipe Scenario.category_pipe
              (Scenario.request SentimentAnalysis "I love this!")
              eq_refl eq_refl eq_refl) as (_ & _ & Hx & Hc & _).
  split; [exact Hx|exact Hc].
Defined.

Lemma translated_text_witness :
  Scenario.detect (Scenario.of_ascii "Me encanta esto!") = Returns "es" /\
  Scenario.translate "auto" "en" (Scenario.of_ascii "Me encanta esto!")
    = Returns (Scenario.of_ascii "I love this!") /\
  translations (fst (page_s (Scenario.request SentimentAnalysis "Me encanta esto!")))
    = [Scenario.of_ascii "Me encanta esto!"] /\
  classifications (fst (page_s (Scenario.request SentimentAnalysis "Me encanta esto!")))
    = [(sentiment_pipe_, Scenario.of_ascii "I love this!")].
Proof.
  split; [reflexivity|]. split; [reflexivity|].
  assert (Hl : "es" <> "en") by discriminate.
  destruct (translated_text_is_classified Scenario.detect Scenario.translate
              Scenario.round Scenario.round
              Scenario.sentiment_pipe Scenario.toxic_pipe Scenario.category_pipe
              (Scenario.request SentimentAnalysis "Me encanta esto!")
              "es" (Scenario.of_ascii "I love this!")
              eq_refl eq_refl eq_refl Hl eq_refl) as (_ & Hx & Hc & _ & _).
  split; [exact Hx|exact Hc].
Defined.

(** The stand-in news model answers with the four codes and one unknown
    label; the table shows them in that order, remapped where mapped. *)
Lemma results_order_witness :
  In (CallClassifier category_pipe_
        (Scenario.of_ascii "Stocks rallied after the earnings report."))
     (fst (page_s (Scenario.request NewsCategoryClassification
                     "Stocks rallied after the earnings report."))) /\
  map (fun df => map fst (table_rows df))
      (tables (fst (page_s (Scenario.request NewsCategoryClassification
                              "Stocks rallied after the earnings report."))))
    = [[CStr "World"; CStr "Sports"; CStr "Business"; CStr "Sci/Tech"; CStr "LABEL_9"]] /\
  map (fun fig => map fst (sectors fig))
      (charts (fst (page_s (Scenario.request NewsCategoryClassification
                              "Stocks rallied after the earnings report."))))
    = [[CStr "World"; CStr "Sports"; CStr "Business"; CStr "Sci/Tech"; CStr "LABEL_9"]].
Proof.
  assert (Hin : In (CallClassifier category_pipe_
                      (Scenario.of_ascii "Stocks rallied after the earnings report."))
                   (fst (page_s (Scenario.request NewsCategoryClassification
                                   "Stocks rallied after the earnings report.")))).
  { vm_compute. auto 20. }
  split; [exact Hin|].
  destruct (results_keep_classifier_order Scenario.detect Scenario.translate
              Scenario.round Scenario.round
              Scenario.sentiment_pipe Scenario.toxic_pipe Scenario.category_pipe
              (Scenario.request NewsCategoryClassification
                 "Stocks rallied after the earnings report.")
              (Scenario.of_ascii "Stocks rallied after the earnings report.")
              _ [] Hin eq_refl) as (_ & _ & H).
  destruct H as (Ht & Hc & _); [discriminate|].
  rewrite Ht, Hc. split; reflexivity.
Defined.

(** The sentiment model is 99.9875 % positive: the page shows 0.01 and
    99.99. *)
Lemma confidences_witness :
  In (CallClassifier sentiment_pipe_ (Scenario.of_ascii "I love this!"))
     (fst (page Scenario.detect Scenario.translate
             Binary64.numpy_round Binary64.builtin_round
             Scenario.sentiment_pipe Scenario.toxic_pipe Scenario.category_pipe
             (Scenario.request SentimentAnalysis "I love this!"))) /\
  map (fun df => map snd (table_rows df))
      (tables (fst (page Scenario.detect Scenario.translate
                      Binary64.numpy_round Binary64.builtin_round
                      Scenario.sentiment_pipe Scenario.toxic_pipe Scenario.category_pipe
                      (Scenario.request SentimentAnalysis "I love this!"))))
    = [[CFloat 0.01; CFloat 99.99]] /\
  PrimFloat.leb 0 99.99 = true /\ PrimFloat.leb 99.99 100 = true /\
  Binary64.two_decimals 99.99 /\
  Binary64.numpy_round 99.99 2 = 99.99%float /\
  Binary64.builtin_round 99.99 2 = 99.99%float.
Proof.
  assert (Hin : In (CallClassifier sentiment_pipe_ (Scenario.of_ascii "I love this!"))
                   (fst (page Scenario.detect Scenario.translate
                           Binary64.numpy_round Binary64.builtin_round
                           Scenario.sentiment_pipe Scenario.toxic_pipe
                           Scenario.category_pipe
                           (Scenario.request SentimentAnalysis "I love this!")))).
  { vm_compute. auto 20. }
  split; [exact Hin |].
  split; [vm_compute; reflexivity |].
  destruct (confidences_are_percentages_with_two_decimals
              Scenario.detect Scenario.translate
              Scenario.sentiment_pipe Scenario.toxic_pipe Scenario.category_pipe
              (Scenario.request SentimentAnalysis "I love this!")
              (Scenario.of_ascii "I love this!")
              [Rec "NEGATIVE" 0.000125; Rec "POSITIVE" 0.999875] [] Hin eq_refl)
    as [H _].
  { intros r [<- | [<- | []]]; split; reflexivity. }
  destruct (H [(CStr "NEGATIVE", CFloat 0.01); (CStr "POSITIVE", CFloat 99.99)])
    as [_ H2].
  { left. eexists. split; [vm_compute; left; reflexivity |]. vm_compute. reflexivity. }
  apply (H2 (CStr "POSITIVE")). right. left. reflexivity.
Defined.

Lemma table_and_chart_witness :
  snd (page_s (Scenario.request ToxicCommentDetection "I love this!")) = Done tt /\
  exists (df : DataFrame) (fig : Figure),
    tables (fst (page_s (Scenario.request ToxicCommentDetection "I love this!"))) = [df] /\
    charts (fst (page_s (Scenario.request ToxicCommentDetection "I love this!"))) = [fig] /\
    sectors fig = table_rows df /\
    length (table_rows df) = 6.
Proof.
  assert (Hd : snd (page_s (Scenario.request ToxicCommentDetection "I love this!")) = Done tt)
    by reflexivity.
  split; [exact Hd|].
  destruct (table_and_chart_show_the_same Scenario.detect Scenario.translate
              Scenario.round Scenario.round
              Scenario.sentiment_pipe Scenario.toxic_pipe Scenario.category_pipe
              (Scenario.request ToxicCommentDetection "I love this!")
              eq_refl eq_refl Hd) as (df & fig & before & _ & Ht & Hc & _ & _ & Hs & _).
  exists df, fig. split; [exact Ht|]. split; [exact Hc|]. split; [exact Hs|].
  assert (E : tables (fst (page_s (Scenario.request ToxicCommentDetection "I love this!")))
              = [shown_frame Scenario.round Scenario.round ToxicCommentDetection
                   [Rec "toxic" 0.0625%float; Rec "severe_toxic" 0.001953125%float;
                    Rec "obscene" 0.015625%float; Rec "threat" 0.0009765625%float;
                    Rec "insult" 0.03125%float; Rec "identity_hate" 0.00390625%float]])
    by reflexivity.
  rewrite E in Ht. injection Ht as <-. reflexivity.
Defined.

(** Both kinds of labels on the stand-ins: sentiment labels reach the
    table as the model gave them, news labels remapped. *)
Lemma labels_witness :
  (exists confidences : Series,
     tables (fst (classify Scenario.round Scenario.round
                    Scenario.sentiment_pipe Scenario.toxic_pipe Scenario.category_pipe
                    "Sentiment Analysis" (Scenario.of_ascii "I love this!")))
     = [[("Sentiment", StrSeries ["NEGATIVE"; "POSITIVE"]);
         ("Confidence (%)", confidences)]]) /\
  (exists confidences : Series,
     tables (fst (classify Scenario.round Scenario.round
                    Scenario.sentiment_pipe Scenario.toxic_pipe Scenario.category_pipe
                    "News Category Classification" (Scenario.of_ascii "I love this!")))
     = [[("Category", StrSeries ["World"; "Sports"; "Business"; "Sci/Tech"; "LABEL_9"]);
         ("Confidence (%)", confidences)]]).
Proof.
  destruct (news_labels_remapped_others_untouched Scenario.round Scenario.round
              Scenario.sentiment_pipe Scenario.toxic_pipe Scenario.category_pipe)
    as (_ & _ & _ & H).
  split.
  - exact (H SentimentAnalysis (Scenario.of_ascii "I love this!") _ _ [] eq_refl).
  - exact (H NewsCategoryClassification (Scenario.of_ascii "I love this!") _ _ [] eq_refl).
Defined.

(** Two requests in one process: the three models are constructed once. *)
Example one_process_loads_once :
  loads (process_s Scenario.pipeline None
           [Scenario.request NewsCategoryClassification "Me encanta esto!";
            Scenario.request SentimentAnalysis "I love this!"])
  = models.
Proof. vm_compute. reflexivity. Qed.

Lemma models_loaded_once_witness :
  Scenario.pipeline "text-classification" "unitary/toxic-bert"
    = Returns Scenario.toxic_pipe /\
  loads (process_s Scenario.pipeline None
           [Scenario.request NewsCategoryClassification "Me encanta esto!";
            Scenario.request SentimentAnalysis "I love this!"]) = models /\
  classifications
    (process_s Scenario.pipeline None
       [Scenario.request NewsCategoryClassification "Me encanta esto!";
        Scenario.request SentimentAnalysis "I love this!"])
    = [(category_pipe_, Scenario.of_ascii "I love this!");
       (sentiment_pipe_, Scenario.of_ascii "I love this!")].
Proof.
  split; [reflexivity|].
  destruct (models_are_loaded_once_when_loading_succeeds
              Scenario.detect Scenario.translate Scenario.pipeline
              Scenario.round Scenario.round
              Scenario.sentiment_pipe Scenario.toxic_pipe Scenario.category_pipe
              eq_refl eq_refl eq_refl) as (_ & _ & Hp & Hl).
  split; [apply Hl|]. rewrite Hp. vm_compute. reflexivity.
Defined.

(** With a factory that fails on the second model nothing is cached: the
    second run attempts the load again, and the first model is constructed
    a second time. *)
Lemma failed_load_is_attempted_again :
  loads (process_s Scenario.broken_pipeline None
           [Scenario.request NewsCategoryClassification "Me encanta esto!";
            Scenario.request SentimentAnalysis "I love this!"])
  = [("text-classification", "distilbert-base-uncased-finetuned-sst-2-english");
     ("text-classification", "unitary/toxic-bert");
     ("text-classification", "distilbert-base-uncased-finetuned-sst-2-english");
     ("text-classification", "unitary/toxic-bert")] /\
  ~ NoDup (loads (process_s Scenario.broken_pipeline None
                    [Scenario.request NewsCategoryClassification "Me encanta esto!";
                     Scenario.request SentimentAnalysis "I love this!"])).
Proof.
  assert (E : loads (process_s Scenario.broken_pipeline None
                       [Scenario.request NewsCategoryClassification "Me encanta esto!";
                        Scenario.request SentimentAnalysis "I love this!"])
              = [("text-classification", "distilbert-base-uncased-finetuned-sst-2-english");
                 ("text-classification", "unitary/toxic-bert");
                 ("text-classification", "distilbert-base-uncased-finetuned-sst-2-english");
                 ("text-classification", "unitary/toxic-bert")])
    by (vm_compute; reflexivity).
  split; [exact E|]. rewrite E. intros H.
  apply NoDup_cons in H as [H _]. apply H. apply list_elem_of_In. simpl. auto.
Qed.

(** A detector that reports French and a translator that returns its input
    unchanged: the classifier is handed the text as typed. *)
Lemma translator_may_return_the_input :
  Echo.detect (Scenario.of_ascii "Bonjour") = Returns "fr" /\
  "fr" <> "en" /\
  Echo.translate "auto" "en" (Scenario.of_ascii "Bonjour")
    = Returns (Scenario.of_ascii "Bonjour") /\
  classifications
    (fst (page Echo.detect Echo.translate Scenario.round Scenario.round
            Scenario.sentiment_pipe Scenario.toxic_pipe Scenario.category_pipe
            (Scenario.request ToxicCommentDetection "Bonjour")))
    = [(toxic_pipe_, typed (Scenario.request ToxicCommentDetection "Bonjour"))].
Proof.
  split; [reflexivity|]. split; [discriminate|]. split; reflexivity.
Qed.

(** ** More of the theorems at work *)

(** The stand-in classifier is out of memory: its exception ends the run. *)
Lemma classifier_exception_witness :
  In (CallClassifier sentiment_pipe_ (Scenario.of_ascii "I love this!"))
     (fst (page Scenario.detect Scenario.translate Scenario.round Scenario.round
             Outage.raising_pipe Scenario.toxic_pipe Scenario.category_pipe
             (Scenario.request SentimentAnalysis "I love this!"))) /\
  snd (page Scenario.detect Scenario.translate Scenario.round Scenario.round
         Outage.raising_pipe Scenario.toxic_pipe Scenario.category_pipe
         (Scenario.request SentimentAnalysis "I love this!"))
    = Raised (Exception "RuntimeError" "CUDA out of memory").
Proof.
  assert (Hin : In (CallClassifier sentiment_pipe_ (Scenario.of_ascii "I love this!"))
                   (fst (page Scenario.detect Scenario.translate Scenario.round
                           Scenario.round Outage.raising_pipe Scenario.toxic_pipe
                           Scenario.category_pipe
                           (Scenario.request SentimentAnalysis "I love this!")))).
  { vm_compute. auto 20. }
  split; [exact Hin|].
  apply (classifier_exception_escapes Scenario.detect Scenario.translate
           Scenario.round Scenario.round
           Outage.raising_pipe Scenario.toxic_pipe Scenario.category_pipe
           (Scenario.request SentimentAnalysis "I love this!")
           (Scenario.of_ascii "I love this!") _ Hin eq_refl).
Defined.

(** The second model cannot be loaded: two constructions, no page. *)
Lemma failed_load_witness :
  snd (load_pipelines Scenario.broken_pipeline)
    = Raised (Exception "OSError" "model not found") /\
  steps (fst (fst (script Scenario.detect Scenario.translate Scenario.broken_pipeline
                     Scenario.round Scenario.round None
                     (Scenario.request SentimentAnalysis "I love this!"))))
    = [CallPipeline "text-classification" "distilbert-base-uncased-finetuned-sst-2-english";
       CallPipeline "text-classification" "unitary/toxic-bert"] /\
  snd (script Scenario.detect Scenario.translate Scenario.broken_pipeline
         Scenario.round Scenario.round None
         (Scenario.request SentimentAnalysis "I love this!")) = None.
Proof.
  split; [reflexivity|].
  destruct (failed_load_shows_no_page Scenario.detect Scenario.translate
              Scenario.broken_pipeline Scenario.round Scenario.round
              (Scenario.request SentimentAnalysis "I love this!")
              (Exception "OSError" "model not found") eq_refl) as [E _].
  rewrite E. split; reflexivity.
Defined.

(** A task outside the selector, and a model that answers with no label. *)
Lemma unknown_task_witness :
  ~ In "Summarization" options /\
  classify Scenario.round Scenario.round
    Scenario.sentiment_pipe Scenario.toxic_pipe Scenario.category_pipe
    "Summarization" (Scenario.of_ascii "I love this!")
  = ([SpinnerEnter [Lit "⚙️ Running classification..."]; SpinnerExit], Done tt).
Proof.
  assert (H : ~ In "Summarization" options).
  { intros [H|[H|[H|[]]]]; discriminate. }
  split; [exact H|].
  apply (only_the_three_tasks_classify Scenario.round Scenario.round
           Scenario.sentiment_pipe Scenario.toxic_pipe Scenario.category_pipe
           "Summarization" (Scenario.of_ascii "I love this!")).
  exact H.
Defined.

Lemma empty_answer_witness :
  snd (classify Scenario.round Scenario.round
         Outage.silent_pipe Outage.silent_pipe Outage.silent_pipe
         "Sentiment Analysis" (Scenario.of_ascii "I love this!"))
    = Raised (KeyError "score") /\
  tables (fst (classify Scenario.round Scenario.round
                 Outage.silent_pipe Outage.silent_pipe Outage.silent_pipe
                 "News Category Classification" (Scenario.of_ascii "I love this!")))
    = [[]].
Proof.
  split.
  - destruct (empty_answers_raise Scenario.round Scenario.round
                Outage.silent_pipe Outage.silent_pipe Outage.silent_pipe
                SentimentAnalysis (Scenario.of_ascii "I love this!")) as [_ H].
    change "Sentiment Analysis" with (task_name SentimentAnalysis).
    rewrite (H [] eq_refl). reflexivity.
  - destruct (empty_answers_raise Scenario.round Scenario.round
                Outage.silent_pipe Outage.silent_pipe Outage.silent_pipe
                NewsCategoryClassification (Scenario.of_ascii "I love this!")) as [_ H].
    change "News Category Classification" with (task_name NewsCategoryClassification).
    rewrite (H [] eq_refl). reflexivity.
Defined.
